(** * blenderplot: a shallow embedding of [blenderplot/__init__.py]

    The module drives a host application (the [bpy] object model) and
    numpy.  Python floats are taken as the real numbers they stand for,
    Python ints as [Z], strings as [string], file contents as lists of
    bytes.  Host
    data-blocks live in a store ([bpy]); Python references to them are
    indices into that store, so that a mutation through one reference is
    seen through every other one.  Exceptions leave the mutated store
    behind, as in Python: a computation returns a result together with the
    world it stopped in.

    What the host does with a value it is given is part of the model: it
    holds floats in single precision, clamps integers and floats to the
    range of the property they are assigned to, refuses integers outside
    32 bits, computes the edges of a mesh from its faces, and writes the
    rendered image where and how it sees fit.  Where that is the host's
    own business (its rounding, its renderer, its matrix arithmetic) the
    model takes it as a parameter. *)

From Stdlib Require Import String List ZArith Reals Lra Lia Bool Arith.
Import ListNotations.

Set Implicit Arguments.
Set Warnings "-register-all".

Local Open Scope string_scope.
Local Open Scope list_scope.

(** ** Exceptions and the state-and-exception monad *)

Inductive exn : Type :=
| AssertionError
| ValueError
| IndexError
| AttributeError
| KeyError
| TypeError
| OverflowError
| ReferenceError
| RuntimeError
| FileNotFoundError.

Inductive result (A : Type) : Type :=
| Ok (a : A)
| Raise (e : exn).

Arguments Ok {A} a.
Arguments Raise {A} e.

Definition is_ok {A} (r : result A) : bool :=
  match r with Ok _ => true | Raise _ => false end.

(** ** numpy arrays *)

(** An [ndarray] is its shape and its elements in row-major order. *)
Record ndarray (A : Type) : Type := mk_ndarray {
  shape : list nat;
  data : list A
}.

Definition ndim {A} (a : ndarray A) : nat := length (shape a).

Definition size {A} (a : ndarray A) : nat := fold_right Nat.mul 1%nat (shape a).

(** [a.shape[k]]: an index past the last axis raises [IndexError]. *)
Definition shape_at {A} (a : ndarray A) (k : nat) : result nat :=
  match nth_error (shape a) k with
  | Some n => Ok n
  | None => Raise IndexError
  end.

(** What the caller may pass where an array is expected: a number, a
    (possibly nested) list or tuple, or an array. *)
Inductive array_like (A : Type) : Type :=
| Num (x : A)
| Seq (xs : list (array_like A))
| Arr (a : ndarray A).

Arguments Num {A} x.
Arguments Seq {A} xs.
Arguments Arr {A} a.

Definition shape_eqb (s t : list nat) : bool :=
  if list_eq_dec Nat.eq_dec s t then true else false.

(** The first exception among the converted items, or all the arrays. *)
Fixpoint collect {A} (rs : list (result A)) : result (list A) :=
  match rs with
  | [] => Ok []
  | Raise e :: _ => Raise e
  | Ok a :: rest =>
      match collect rest with
      | Ok l => Ok (a :: l)
      | Raise e => Raise e
      end
  end.

(** Stacking the converted items of a sequence along a new first axis;
    items of different shapes make numpy raise [ValueError]. *)
Definition stack {A} (items : list (ndarray A)) : result (ndarray A) :=
  match items with
  | [] => Ok (mk_ndarray [0%nat] [])
  | a :: rest =>
      if forallb (fun b => shape_eqb (shape b) (shape a)) rest
      then Ok (mk_ndarray (length items :: shape a) (concat (map (@data A) items)))
      else Raise ValueError
  end.

(** [numpy.asarray(v, dtype=...)] on a value whose leaves already have the
    requested dtype. *)
Fixpoint asarray {A} (v : array_like A) : result (ndarray A) :=
  match v with
  | Num x => Ok (mk_ndarray [] [x])
  | Arr a => Ok a
  | Seq xs =>
      match collect (map asarray xs) with
      | Ok items => stack items
      | Raise e => Raise e
      end
  end.

(** The 32-bit and 64-bit signed integers. *)
Definition in_int32 (z : Z) : bool :=
  (-2147483648 <=? z)%Z && (z <=? 2147483647)%Z.

Definition in_int64 (z : Z) : bool :=
  (-9223372036854775808 <=? z)%Z && (z <=? 9223372036854775807)%Z.

(** [numpy.asarray(v, dtype=int)] on Python integers: the elements
    become 64-bit integers, and an integer that does not fit makes numpy
    raise [OverflowError]. *)
Definition asarray_int (v : array_like Z) : result (ndarray Z) :=
  match asarray v with
  | Ok a => if forallb in_int64 (data a) then Ok a else Raise OverflowError
  | Raise e => Raise e
  end.

(** Iterating over a two-dimensional array yields its rows. *)
Fixpoint array_rows {A} (n cols : nat) (d : list A) : list (list A) :=
  match n with
  | O => []
  | S n' => firstn cols d :: array_rows n' cols (skipn cols d)
  end.

Definition rows {A} (a : ndarray A) : list (list A) :=
  match shape a with
  | [n; cols] => array_rows n cols (data a)
  | _ => []
  end.

(** The [i]-th row of an array of the given number of columns. *)
Definition row {A} (a : ndarray A) (cols i : nat) : list A :=
  firstn cols (skipn (i * cols) (data a)).

(** ** The host's object model *)

(** A color attribute of a mesh: one color per element of its domain. *)
Record Attribute : Type := mk_Attribute {
  attr_name : string;
  attr_type : string;
  attr_domain : string;
  attr_data : list (list R)
}.

(** A mesh data-block.  [mesh_materials] holds references into
    [bpy.data.materials]. *)
Record Mesh : Type := mk_Mesh {
  mesh_name : string;
  mesh_vertices : list (list R);
  mesh_edges : list (list Z);
  mesh_faces : list (list Z);
  color_attributes : list Attribute;
  mesh_materials : list nat
}.

Record Node : Type := mk_Node {
  node_name : string;
  node_type : string;
  layer_name : string
}.

Record Link : Type := mk_Link {
  from_node : nat;
  from_socket : nat;
  to_node : nat;
  to_socket : nat
}.

Record Material : Type := mk_Material {
  mat_name : string;
  use_nodes : bool;
  nodes : list Node;
  links : list Link
}.

Record Camera : Type := mk_Camera {
  cam_name : string;
  lens : R
}.

Record Light : Type := mk_Light {
  light_name : string;
  light_type : string;
  energy : R
}.

Definition vec3 : Type := (R * R * R)%type.

Definition mat3 : Type := (vec3 * vec3 * vec3)%type.

(** What an object's [data] refers to. *)
Inductive data_ref : Type :=
| MeshData (i : nat)
| CameraData (i : nat)
| LightData (i : nat).

Record Object : Type := mk_Object {
  obj_name : string;
  obj_data : data_ref;
  location : vec3;
  rotation_euler : vec3
}.

Record RenderSettings : Type := mk_RenderSettings {
  engine : string;
  resolution_x : Z;
  resolution_y : Z;
  filepath : string
}.

(** The scene: the child collections and the objects linked to its root
    collection (references), its active camera and its render settings. *)
Record Scene : Type := mk_Scene {
  children : list nat;
  scene_objects : list nat;
  scene_camera : option nat;
  render : RenderSettings
}.

(** [bpy.data], [bpy.context.scene] and the one field of
    [bpy.context.view_layer] the module touches. *)
Record bpy : Type := mk_bpy {
  meshes : list Mesh;
  materials : list Material;
  cameras : list Camera;
  lights : list Light;
  objects : list Object;
  scene : Scene;
  use_denoising : bool
}.

(** A writable binary stream: what it holds and where the next write
    goes. *)
Record stream : Type := mk_stream {
  content : list Byte.byte;
  position : nat
}.

(** The world a call runs in: the host, the file system, the open
    streams and the time. *)
Record world : Type := mk_world {
  host : bpy;
  fs : string -> option (list Byte.byte);
  streams : nat -> stream;
  clock : nat
}.

(** What the module leaves to its environment:
    - the image file the host's renderer produces for a host state at a
      time (the host stamps the date and the render time into the file);
    - the file the host saves the image to for a render filepath (it may
      add or replace the extension, and raises when it cannot save);
    - the host's choice of a free data-block name;
    - the color a new attribute is filled with;
    - what numpy answers for the truth value of an empty array (false
      with a deprecation warning before NumPy 2.2, [ValueError] since);
    - the name the operating system picks for a new temporary directory;
    - the single-precision number the host holds for a Python float in
      the range of single precision;
    - the edges the host computes for a mesh from the edges it has and
      its faces;
    - the host's [Euler.to_matrix()] and its product of a matrix and a
      vector, both computed in floating point. *)
Class Env : Type := mk_Env {
  render_image : bpy -> nat -> list Byte.byte;
  save_path : bpy -> string -> result string;
  unique_name : string -> list string -> string;
  default_color : list R;
  empty_array_truth : result bool;
  mkdtemp : (string -> option (list Byte.byte)) -> string;
  f32 : R -> R;
  calc_edges : list (list Z) -> list (list Z) -> list (list Z);
  euler_to_matrix : vec3 -> mat3;
  matrix_vector : mat3 -> vec3 -> vec3
}.

Definition M (A : Type) : Type := world -> result A * world.

Definition ret {A} (a : A) : M A := fun w => (Ok a, w).

Definition raise {A} (e : exn) : M A := fun w => (Raise e, w).

Definition bind {A B} (m : M A) (k : A -> M B) : M B :=
  fun w =>
    match m w with
    | (Ok a, w') => k a w'
    | (Raise e, w') => (Raise e, w')
    end.

Notation "x <- m ;; k" := (bind m (fun x => k))
  (at level 61, m at next level, right associativity).
Notation "m ;; k" := (bind m (fun _ => k))
  (at level 61, right associativity).

Definition lift {A} (r : result A) : M A :=
  match r with
  | Ok a => ret a
  | Raise e => raise e
  end.

Definition get_host : M bpy := fun w => (Ok (host w), w).

Definition modify_host (f : bpy -> bpy) : M unit :=
  fun w => (Ok tt, mk_world (f (host w)) (fs w) (streams w) (clock w)).

(** What the host stores for a Python integer assigned to an integer
    property of range [lo..hi]: it refuses an integer outside 32 bits
    with [ValueError] and clamps the others to the range. *)
Definition store_int (lo hi v : Z) : result Z :=
  if in_int32 v then Ok (Z.max lo (Z.min hi v)) else Raise ValueError.

(** Python's short-circuit [and]: the right operand is evaluated only when
    the left one is true. *)
Definition py_and (a b : result bool) : result bool :=
  match a with
  | Ok true => b
  | Ok false => Ok false
  | Raise e => Raise e
  end.

Definition py_assert (c : result bool) : M unit :=
  match c with
  | Ok true => ret tt
  | Ok false => raise AssertionError
  | Raise e => raise e
  end.

Definition shape_at_is {A} (a : ndarray A) (k n : nat) : result bool :=
  match shape_at a k with
  | Ok m => Ok (Nat.eqb m n)
  | Raise e => Raise e
  end.

(** Replacing the element at an index the list has. *)
Fixpoint update_nth {A} (i : nat) (f : A -> A) (l : list A) : list A :=
  match l, i with
  | [], _ => []
  | x :: rest, O => f x :: rest
  | x :: rest, S i' => x :: update_nth i' f rest
  end.

(** Field updates of the host records. *)
Definition set_meshes (f : list Mesh -> list Mesh) (b : bpy) : bpy :=
  mk_bpy (f (meshes b)) (materials b) (cameras b) (lights b) (objects b)
         (scene b) (use_denoising b).

Definition set_materials (f : list Material -> list Material) (b : bpy) : bpy :=
  mk_bpy (meshes b) (f (materials b)) (cameras b) (lights b) (objects b)
         (scene b) (use_denoising b).

Definition set_cameras (f : list Camera -> list Camera) (b : bpy) : bpy :=
  mk_bpy (meshes b) (materials b) (f (cameras b)) (lights b) (objects b)
         (scene b) (use_denoising b).

Definition set_lights (f : list Light -> list Light) (b : bpy) : bpy :=
  mk_bpy (meshes b) (materials b) (cameras b) (f (lights b)) (objects b)
         (scene b) (use_denoising b).

Definition set_objects (f : list Object -> list Object) (b : bpy) : bpy :=
  mk_bpy (meshes b) (materials b) (cameras b) (lights b) (f (objects b))
         (scene b) (use_denoising b).

Definition set_scene (f : Scene -> Scene) (b : bpy) : bpy :=
  mk_bpy (meshes b) (materials b) (cameras b) (lights b) (objects b)
         (f (scene b)) (use_denoising b).

Definition set_use_denoising (v : bool) (b : bpy) : bpy :=
  mk_bpy (meshes b) (materials b) (cameras b) (lights b) (objects b)
         (scene b) v.

Definition set_children (f : list nat -> list nat) (s : Scene) : Scene :=
  mk_Scene (f (children s)) (scene_objects s) (scene_camera s) (render s).

Definition set_scene_objects (f : list nat -> list nat) (s : Scene) : Scene :=
  mk_Scene (children s) (f (scene_objects s)) (scene_camera s) (render s).

Definition set_scene_camera (c : option nat) (s : Scene) : Scene :=
  mk_Scene (children s) (scene_objects s) c (render s).

Definition set_render (f : RenderSettings -> RenderSettings) (s : Scene) : Scene :=
  mk_Scene (children s) (scene_objects s) (scene_camera s) (f (render s)).

Definition set_engine (v : string) (r : RenderSettings) : RenderSettings :=
  mk_RenderSettings v (resolution_x r) (resolution_y r) (filepath r).

Definition put_resolution_x (v : Z) (r : RenderSettings) : RenderSettings :=
  mk_RenderSettings (engine r) v (resolution_y r) (filepath r).

Definition put_resolution_y (v : Z) (r : RenderSettings) : RenderSettings :=
  mk_RenderSettings (engine r) (resolution_x r) v (filepath r).

Definition set_filepath (v : string) (r : RenderSettings) : RenderSettings :=
  mk_RenderSettings (engine r) (resolution_x r) (resolution_y r) v.

(** The host state with another output path in its render settings. *)
Definition with_filepath (p : string) (b : bpy) : bpy :=
  set_scene (set_render (set_filepath p)) b.

(** The keyword arguments of [render_tri]. *)
Module Kw.
Record t : Type := mk {
  colors : option (array_like R);
  camera_rotation : vec3;
  camera_distance : R;
  camera_focal_length : R;
  light_distance : R;
  light_energy : R;
  renderer : string;
  resolution_x : Z;
  resolution_y : Z
}.

(** The defaults of the signature. *)
Definition default : t :=
  mk None (0.7, 0.0, 0.8)%R 5.0%R 35%R 5.0%R 300%R "CYCLES" 800 600.
End Kw.

(** The output argument: something with a file-system path, or a writable
    stream (a handle into [streams]). *)
Inductive output_arg : Type :=
| OutPath (p : string)
| OutStream (h : nat).

(** [os.fspath]: a path gives its string, anything else [TypeError]. *)
Definition fspath (o : output_arg) : result string :=
  match o with
  | OutPath p => Ok p
  | OutStream _ => Raise TypeError
  end.

Section Blenderplot.

Context {env : Env}.

(** *** Host calls *)

(** [bpy.data.meshes.new(name)]: a new, empty mesh under a free name. *)
Definition meshes_new (name : string) : M nat :=
  b <- get_host ;;
  modify_host (set_meshes (fun l =>
    l ++ [mk_Mesh (unique_name name (map mesh_name l)) [] [] [] [] []])) ;;
  ret (length (meshes b)).

(** The indices the host can take: 32-bit integers. *)
Definition indices_fit (l : list (list Z)) : bool := forallb (forallb in_int32) l.

(** Elements the host has added and not yet filled in. *)
Definition unset (l : list (list Z)) : list (list Z) := map (map (fun _ => 0%Z)) l.

(** The coordinates or the color the host holds for Python floats. *)
Definition stored (x : list R) : list R := map f32 x.

(** The edges of a mesh after [from_pydata]: with faces given, the host
    computes the edges the faces need. *)
Definition edges_after (es fs_ : list (list Z)) (m : Mesh) : list (list Z) :=
  match fs_ with
  | [] => mesh_edges m ++ es
  | _ => calc_edges (mesh_edges m ++ es) (mesh_faces m ++ fs_)
  end.

(** [mesh.from_pydata(vertices, edges, faces)]: the host adds vertices,
    edges and faces to the mesh, then fills them in: the coordinates in
    single precision, then the indices.  An index that is no 32-bit
    integer makes it raise [TypeError] at that point, with the elements
    added and the indices not set.  With faces given it ends by computing
    the edges. *)
Definition from_pydata (mesh : nat) (vs : list (list R)) (es fs_ : list (list Z))
  : M unit :=
  b <- get_host ;;
  match nth_error (meshes b) mesh with
  | None => raise ReferenceError
  | Some _ =>
      if indices_fit es && indices_fit fs_ then
        modify_host (set_meshes (update_nth mesh (fun m =>
          mk_Mesh (mesh_name m) (mesh_vertices m ++ map stored vs)
                  (edges_after es fs_ m)
                  (mesh_faces m ++ fs_) (color_attributes m) (mesh_materials m))))
      else
        modify_host (set_meshes (update_nth mesh (fun m =>
          mk_Mesh (mesh_name m) (mesh_vertices m ++ map stored vs)
                  (mesh_edges m ++ unset es)
                  (mesh_faces m ++ unset fs_) (color_attributes m)
                  (mesh_materials m)))) ;;
        raise TypeError
  end.

(** [bpy.data.objects.new(name, data)]: a new object at the origin. *)
Definition objects_new (name : string) (d : data_ref) : M nat :=
  b <- get_host ;;
  modify_host (set_objects (fun l =>
    l ++ [mk_Object (unique_name name (map obj_name l)) d
                    (0, 0, 0)%R (0, 0, 0)%R])) ;;
  ret (length (objects b)).

(** [obj.data] where a mesh is expected. *)
Definition obj_mesh (obj : nat) : M nat :=
  b <- get_host ;;
  match nth_error (objects b) obj with
  | None => raise ReferenceError
  | Some o =>
      match obj_data o with
      | MeshData m => ret m
      | _ => raise AttributeError
      end
  end.

Definition get_mesh (mesh : nat) : M Mesh :=
  b <- get_host ;;
  match nth_error (meshes b) mesh with
  | None => raise ReferenceError
  | Some m => ret m
  end.

(** The number of elements of a mesh in an attribute domain. *)
Definition domain_size (m : Mesh) (domain : string) : nat :=
  if String.eqb domain "POINT" then length (mesh_vertices m)
  else if String.eqb domain "CORNER" then length (concat (mesh_faces m))
  else 0%nat.

(** [mesh.color_attributes.new(name=, type=, domain=)]: a new attribute
    with one color per element of the domain.  The reference it returns
    is the mesh and the position of the attribute in it. *)
Definition color_attributes_new (mesh : nat) (name type domain : string)
  : M (nat * nat) :=
  m <- get_mesh mesh ;;
  modify_host (set_meshes (update_nth mesh (fun m =>
    mk_Mesh (mesh_name m) (mesh_vertices m) (mesh_edges m) (mesh_faces m)
            (color_attributes m ++
               [mk_Attribute (unique_name name (map attr_name (color_attributes m)))
                             type domain
                             (repeat default_color (domain_size m domain))])
            (mesh_materials m)))) ;;
  ret (mesh, length (color_attributes m)).

Definition get_attr (attr : nat * nat) : M Attribute :=
  m <- get_mesh (fst attr) ;;
  match nth_error (color_attributes m) (snd attr) with
  | None => raise ReferenceError
  | Some a => ret a
  end.

(** [attr.data[i].color = color]: an index past the end of the
    attribute's data raises [IndexError]; the host holds the color in
    single precision. *)
Definition set_attr_color (attr : nat * nat) (i : nat) (color : list R) : M unit :=
  a <- get_attr attr ;;
  if Nat.ltb i (length (attr_data a)) then
    modify_host (set_meshes (update_nth (fst attr) (fun m =>
      mk_Mesh (mesh_name m) (mesh_vertices m) (mesh_edges m) (mesh_faces m)
              (update_nth (snd attr) (fun a =>
                 mk_Attribute (attr_name a) (attr_type a) (attr_domain a)
                              (update_nth i (fun _ => stored color) (attr_data a)))
                 (color_attributes m))
              (mesh_materials m))))
  else raise IndexError.

(** *** mesh_from_tri *)

Definition mesh_from_tri (name : string) (vertices : array_like R)
    (triangles : array_like Z) : M nat :=
  vertices <- lift (asarray vertices) ;;
  triangles <- lift (asarray_int triangles) ;;
  py_assert (py_and (Ok (Nat.eqb (ndim vertices) 2))
            (py_and (Ok (Nat.eqb (ndim triangles) 2))
            (py_and (shape_at_is vertices 1 3)
                    (shape_at_is triangles 1 3)))) ;;
  mesh <- meshes_new name ;;
  from_pydata mesh (rows vertices) [] (rows triangles) ;;
  objects_new name (MeshData mesh).

(** *** add_vertex_colors *)

(** [for i, color in enumerate(colors): attr.data[i].color = color],
    started at index [i]. *)
Fixpoint copy_colors (attr : nat * nat) (i : nat) (colors : list (list R))
  : M unit :=
  match colors with
  | [] => ret tt
  | color :: rest =>
      set_attr_color attr i color ;;
      copy_colors attr (S i) rest
  end.

Definition add_vertex_colors (obj : nat) (name : string) (colors : array_like R)
  : M (nat * nat) :=
  colors <- lift (asarray colors) ;;
  py_assert (py_and (Ok (Nat.eqb (ndim colors) 2)) (shape_at_is colors 1 4)) ;;
  mesh <- obj_mesh obj ;;
  attr <- color_attributes_new mesh name "FLOAT_COLOR" "POINT" ;;
  copy_colors attr 0 (rows colors) ;;
  ret attr.

(** *** add_vertex_colors_and_material *)

(** [bpy.data.materials.new(name=name)]. *)
Definition materials_new (name : string) : M nat :=
  b <- get_host ;;
  modify_host (set_materials (fun l =>
    l ++ [mk_Material (unique_name name (map mat_name l)) false [] []])) ;;
  ret (length (materials b)).

Definition get_material (material : nat) : M Material :=
  b <- get_host ;;
  match nth_error (materials b) material with
  | None => raise ReferenceError
  | Some m => ret m
  end.

Definition modify_material (material : nat) (f : Material -> Material) : M unit :=
  get_material material ;;
  modify_host (set_materials (update_nth material f)).

(** The nodes a material is preloaded with when nodes are switched on. *)
Definition preloaded_nodes : list Node :=
  [mk_Node "Principled BSDF" "ShaderNodeBsdfPrincipled" "";
   mk_Node "Material Output" "ShaderNodeOutputMaterial" ""].

(** [material.use_nodes = v]. *)
Definition set_use_nodes (material : nat) (v : bool) : M unit :=
  modify_material material (fun m =>
    mk_Material (mat_name m) v
      (if v then match nodes m with [] => preloaded_nodes | l => l end
       else nodes m)
      (if v then match nodes m with
                 | [] => [mk_Link 0 0 1 0]
                 | _ => links m
                 end
       else links m)).

Fixpoint find_node (name : string) (l : list Node) (i : nat) : option nat :=
  match l with
  | [] => None
  | n :: rest =>
      if String.eqb (node_name n) name then Some i
      else find_node name rest (S i)
  end.

(** [material.node_tree.nodes[name]]. *)
Definition nodes_lookup (material : nat) (name : string) : M nat :=
  m <- get_material material ;;
  match find_node name (nodes m) 0 with
  | Some i => ret i
  | None => raise KeyError
  end.

Definition node_label (type : string) : string :=
  if String.eqb type "ShaderNodeVertexColor" then "Color Attribute" else type.

(** [material.node_tree.nodes.new(type)]. *)
Definition nodes_new (material : nat) (type : string) : M nat :=
  m <- get_material material ;;
  modify_material material (fun m =>
    mk_Material (mat_name m) (use_nodes m)
      (nodes m ++ [mk_Node (unique_name (node_label type) (map node_name (nodes m)))
                           type ""])
      (links m)) ;;
  ret (length (nodes m)).

(** [node.layer_name = v]. *)
Definition set_layer_name (material node : nat) (v : string) : M unit :=
  modify_material material (fun m =>
    mk_Material (mat_name m) (use_nodes m)
      (update_nth node (fun n => mk_Node (node_name n) (node_type n) v) (nodes m))
      (links m)).

(** [material.node_tree.links.new(a.outputs[i], b.inputs[j])]. *)
Definition links_new (material a i b j : nat) : M unit :=
  modify_material material (fun m =>
    mk_Material (mat_name m) (use_nodes m) (nodes m)
                (links m ++ [mk_Link a i b j])).

(** [obj.data.materials.append(material)]. *)
Definition materials_append (obj material : nat) : M unit :=
  mesh <- obj_mesh obj ;;
  modify_host (set_meshes (update_nth mesh (fun m =>
    mk_Mesh (mesh_name m) (mesh_vertices m) (mesh_edges m) (mesh_faces m)
            (color_attributes m) (mesh_materials m ++ [material])))).

Definition add_vertex_colors_and_material (obj : nat) (name : string)
    (colors : array_like R) : M ((nat * nat) * nat) :=
  color_attr <- add_vertex_colors obj name colors ;;
  material <- materials_new name ;;
  set_use_nodes material true ;;
  shader <- nodes_lookup material "Principled BSDF" ;;
  vertex_colors <- nodes_new material "ShaderNodeVertexColor" ;;
  a <- get_attr color_attr ;;
  set_layer_name material vertex_colors (attr_name a) ;;
  links_new material vertex_colors 0 shader 0 ;;
  materials_append obj material ;;
  ret (color_attr, material).

(** *** render_tri *)

Definition nonzero (x : R) : bool := if Req_dec_T x 0 then false else true.

(** The truth value Python gives a non-[None] [colors] argument in
    [if colors:]: an empty sequence is false, a number is true unless
    zero, and numpy refuses to answer for an array of more than one
    element. *)
Definition truth (colors : array_like R) : result bool :=
  match colors with
  | Num x => Ok (nonzero x)
  | Seq xs => Ok (negb (Nat.eqb (length xs) 0))
  | Arr a =>
      match size a with
      | 0%nat => empty_array_truth
      | 1%nat => Ok (nonzero (hd 0%R (data a)))
      | _ => Raise ValueError
      end
  end.

Fixpoint remove_first (c : nat) (l : list nat) : option (list nat) :=
  match l with
  | [] => None
  | x :: rest =>
      if Nat.eqb x c then Some rest
      else match remove_first c rest with
           | Some rest' => Some (x :: rest')
           | None => None
           end
  end.

(** [scene.collection.children.unlink(c)]: the host refuses a collection
    that is not a child. *)
Definition children_unlink (c : nat) : M unit :=
  b <- get_host ;;
  match remove_first c (children (scene b)) with
  | Some l => modify_host (set_scene (set_children (fun _ => l)))
  | None => raise RuntimeError
  end.

Fixpoint for_each {A} (l : list A) (body : A -> M unit) : M unit :=
  match l with
  | [] => ret tt
  | x :: rest => body x ;; for_each rest body
  end.

(** [for c in scene.collection.children: scene.collection.children.unlink(c)].
    The host's iterator has moved past an item when it hands the item
    out, so the loop visits the children the collection had at its
    start. *)
Definition clear_scene : M unit :=
  b <- get_host ;;
  for_each (children (scene b)) children_unlink.

(** [scene.collection.objects.link(obj)], for an object just created (the
    host refuses only one that is linked already). *)
Definition objects_link (obj : nat) : M unit :=
  modify_host (set_scene (set_scene_objects (fun l => l ++ [obj]))).

(** [bpy.data.cameras.new(name)]. *)
Definition cameras_new (name : string) : M nat :=
  b <- get_host ;;
  modify_host (set_cameras (fun l =>
    l ++ [mk_Camera (unique_name name (map cam_name l)) 50%R])) ;;
  ret (length (cameras b)).

Definition get_camera (cam : nat) : M Camera :=
  b <- get_host ;;
  match nth_error (cameras b) cam with
  | None => raise ReferenceError
  | Some c => ret c
  end.

(** [camera.lens = v]: a single-precision property of at least 1. *)
Definition set_lens (cam : nat) (v : R) : M unit :=
  get_camera cam ;;
  modify_host (set_cameras (update_nth cam (fun c =>
    mk_Camera (cam_name c) (Rmax 1 (f32 v))))).

(** [bpy.data.lights.new(name=, type=)]. *)
Definition lights_new (name type : string) : M nat :=
  b <- get_host ;;
  modify_host (set_lights (fun l =>
    l ++ [mk_Light (unique_name name (map light_name l)) type 10%R])) ;;
  ret (length (lights b)).

Definition get_light (light : nat) : M Light :=
  b <- get_host ;;
  match nth_error (lights b) light with
  | None => raise ReferenceError
  | Some l => ret l
  end.

(** [light.energy = v]: a single-precision property. *)
Definition set_energy (light : nat) (v : R) : M unit :=
  get_light light ;;
  modify_host (set_lights (update_nth light (fun l =>
    mk_Light (light_name l) (light_type l) (f32 v)))).

Definition get_object (obj : nat) : M Object :=
  b <- get_host ;;
  match nth_error (objects b) obj with
  | None => raise ReferenceError
  | Some o => ret o
  end.

(** The vector the host holds for three Python floats. *)
Definition stored3 (v : vec3) : vec3 :=
  let '(x, y, z) := v in (f32 x, f32 y, f32 z).

(** [obj.location = v] and [obj.rotation_euler = v]: single-precision
    vectors. *)
Definition set_location (obj : nat) (v : vec3) : M unit :=
  get_object obj ;;
  modify_host (set_objects (update_nth obj (fun o =>
    mk_Object (obj_name o) (obj_data o) (stored3 v) (rotation_euler o)))).

Definition set_rotation_euler (obj : nat) (v : vec3) : M unit :=
  get_object obj ;;
  modify_host (set_objects (update_nth obj (fun o =>
    mk_Object (obj_name o) (obj_data o) (location o) (stored3 v)))).

(** [scene.render.resolution_x = v] and [scene.render.resolution_y = v]:
    integer properties of range 4 to 65536. *)
Definition set_resolution_x (v : Z) : M unit :=
  r <- lift (store_int 4 65536 v) ;;
  modify_host (set_scene (set_render (put_resolution_x r))).

Definition set_resolution_y (v : Z) : M unit :=
  r <- lift (store_int 4 65536 v) ;;
  modify_host (set_scene (set_render (put_resolution_y r))).

(** [rotation_euler.to_matrix() @ mathutils.Vector([0, 0, d])]: the
    host's matrix of the angles it holds, times the vector it makes of
    the three Python floats. *)
Definition camera_position (rotation : vec3) (d : R) : vec3 :=
  matrix_vector (euler_to_matrix rotation) (stored3 (0, 0, d)%R).

(** The rotation matrix of Euler angles in the host's default order XYZ,
    in exact arithmetic: the rows of the rotation about Z after the one
    about Y after the one about X. *)
Definition to_matrix (e : vec3) : mat3 :=
  let '(x, y, z) := e in
  let ci := cos x in let cj := cos y in let ch := cos z in
  let si := sin x in let sj := sin y in let sh := sin z in
  let cc := (ci * ch)%R in let cs := (ci * sh)%R in
  let sc := (si * ch)%R in let ss := (si * sh)%R in
  (((cj * ch)%R, (sj * sc - cs)%R, (sj * cc + ss)%R),
   ((cj * sh)%R, (sj * ss + cc)%R, (sj * cs - sc)%R),
   ((- sj)%R, (cj * si)%R, (cj * ci)%R)).

Definition dot (a b : vec3) : R :=
  let '(a0, a1, a2) := a in
  let '(b0, b1, b2) := b in
  (a0 * b0 + a1 * b1 + a2 * b2)%R.

(** The product of a matrix and a vector, in exact arithmetic. *)
Definition matvec (m : mat3) (v : vec3) : vec3 :=
  let '(r0, r1, r2) := m in (dot r0 v, dot r1 v, dot r2 v).


Definition write_file (p : string) (bytes : list Byte.byte)
    (f : string -> option (list Byte.byte)) : string -> option (list Byte.byte) :=
  fun q => if String.eqb q p then Some bytes else f q.

(** [bpy.ops.render.render(write_still=...)]: the host renders the scene,
    which takes time; with [write_still] it saves the image to the file
    it makes of the scene's render filepath, and raises [RuntimeError]
    (or what [save_path] says) when it cannot save there. *)
Definition ops_render_render (write_still : bool) : M unit :=
  fun w =>
    if write_still then
      match save_path (host w) (filepath (render (scene (host w)))) with
      | Ok q =>
          (Ok tt,
           mk_world (host w)
             (write_file q (render_image (host w) (clock w)) (fs w))
             (streams w) (S (clock w)))
      | Raise e => (Raise e, mk_world (host w) (fs w) (streams w) (S (clock w)))
      end
    else (Ok tt, mk_world (host w) (fs w) (streams w) (S (clock w))).

(** Lines 77 to 111: everything [render_tri] does before it invokes the
    render operator.  The world it returns is the one the operator is
    invoked in. *)
Definition render_tri_prepare (output : string) (vertices : array_like R)
    (triangles : array_like Z) (kw : Kw.t) : M unit :=
  (* Clear the scene. *)
  clear_scene ;;
  (* Add a mesh. *)
  mesh <- mesh_from_tri "mesh" vertices triangles ;;
  match Kw.colors kw with
  | None => ret tt
  | Some colors =>
      t <- lift (truth colors) ;;
      if t then add_vertex_colors_and_material mesh "Col" colors ;; ret tt
      else ret tt
  end ;;
  objects_link mesh ;;
  (* Add a camera. *)
  camera_data <- cameras_new "camera" ;;
  set_lens camera_data (Kw.camera_focal_length kw) ;;
  c <- get_camera camera_data ;;
  camera <- objects_new (cam_name c) (CameraData camera_data) ;;
  set_location camera (0, 0, 0)%R ;;
  set_rotation_euler camera (Kw.camera_rotation kw) ;;
  o <- get_object camera ;;
  set_location camera
    (camera_position (rotation_euler o) (Kw.camera_distance kw)) ;;
  objects_link camera ;;
  modify_host (set_scene (set_scene_camera (Some camera))) ;;
  (* Add a light source. *)
  light <- lights_new "light" "POINT" ;;
  set_energy light (Kw.light_energy kw) ;;
  l <- get_light light ;;
  light <- objects_new (light_name l) (LightData light) ;;
  set_location light (0, 0, Kw.light_distance kw)%R ;;
  objects_link light ;;
  (* Render. *)
  modify_host (set_use_denoising false) ;;
  modify_host (set_scene (set_render (set_engine "CYCLES"))) ;;
  set_resolution_x (Kw.resolution_x kw) ;;
  set_resolution_y (Kw.resolution_y kw) ;;
  modify_host (set_scene (set_render (set_filepath output))).

(** The function as written, before decoration. *)
Definition render_tri_impl (output : string) (vertices : array_like R)
    (triangles : array_like Z) (kw : Kw.t) : M unit :=
  render_tri_prepare output vertices triangles kw ;;
  ops_render_render true.

(** *** _ensure_filename *)

Definition read_file (p : string) : M (list Byte.byte) :=
  fun w =>
    match fs w p with
    | Some bytes => (Ok bytes, w)
    | None => (Raise FileNotFoundError, w)
    end.

(** What a stream holds after bytes are written at a position: they
    replace what was there, and a position past the end is reached by
    zero bytes. *)
Definition write_at (pos : nat) (bytes old : list Byte.byte) : list Byte.byte :=
  firstn pos (old ++ repeat Byte.x00 (pos - length old)) ++ bytes ++
  skipn (pos + length bytes) old.

Definition stream_write (bytes : list Byte.byte) (s : stream) : stream :=
  mk_stream (write_at (position s) bytes (content s))
            (position s + length bytes).

(** [output.write(bytes)]: a binary stream takes the bytes at its
    position and moves on; a path string has no [write]. *)
Definition output_write (output : output_arg) (bytes : list Byte.byte) : M unit :=
  match output with
  | OutStream h =>
      fun w =>
        (Ok tt,
         mk_world (host w) (fs w)
           (fun k => if Nat.eqb k h then stream_write bytes (streams w h)
                     else streams w k)
           (clock w))
  | OutPath _ => raise AttributeError
  end.

(** [with TemporaryDirectory() as tmpdir: body]: the directory and what is
    in it are gone when the block is left, also by an exception. *)
Definition with_TemporaryDirectory {A} (body : string -> M A) : M A :=
  fun w =>
    let tmpdir := mkdtemp (fs w) in
    let (r, w') := body tmpdir w in
    (r,
     mk_world (host w')
       (fun q => if String.prefix (String.append tmpdir "/") q then None
                 else fs w' q)
       (streams w') (clock w')).

Definition _ensure_filename {V T K : Type}
    (f : string -> V -> T -> K -> M unit)
    (output : output_arg) (v : V) (t : T) (kw : K) : M unit :=
  match fspath output with
  | Ok output => f output v t kw
  | Raise TypeError =>
      with_TemporaryDirectory (fun tmpdir =>
        let tmpfile := String.append tmpdir "/out.png" in
        f tmpfile v t kw ;;
        src <- read_file tmpfile ;;
        output_write output src)
  | Raise e => raise e
  end.

Definition render_tri : output_arg -> array_like R -> array_like Z -> Kw.t -> M unit :=
  _ensure_filename render_tri_impl.

End Blenderplot.

(** * Notions the properties are stated with *)

(** A two-dimensional array with the given number of columns. *)
Definition conforming {A} (a : ndarray A) (cols : nat) : Prop :=
  ndim a = 2%nat /\ nth_error (shape a) 1 = Some cols.

Definition conformingb {A} (a : ndarray A) (cols : nat) : bool :=
  match shape a with
  | [_; c] => Nat.eqb c cols
  | _ => false
  end.

(** The attribute a reference denotes in a world. *)
Definition attr_at (w : world) (mesh attr : nat) (a : Attribute) : Prop :=
  exists m, nth_error (meshes (host w)) mesh = Some m /\
            nth_error (color_attributes m) attr = Some a.

(** The object [obj] of a world has the mesh [m], stored at [mesh]. *)
Definition mesh_of (w : world) (obj mesh : nat) (m : Mesh) : Prop :=
  exists o, nth_error (objects (host w)) obj = Some o /\
            obj_data o = MeshData mesh /\
            nth_error (meshes (host w)) mesh = Some m.

(** The world with no child collection under the scene's root. *)
Definition without_children (w : world) : world :=
  mk_world (set_scene (set_children (fun _ => [])) (host w)) (fs w) (streams w)
           (clock w).

(** The world at another time. *)
Definition at_time (c : nat) (w : world) : world :=
  mk_world (host w) (fs w) (streams w) c.

(** [post m Q]: whenever [m] returns normally, it does so in a world
    where [Q] holds. *)
Definition post {A} (m : M A) (Q : world -> Prop) : Prop :=
  forall w a w', m w = (Ok a, w') -> Q w'.

(** The mesh [mesh_from_tri] builds of triangles the host can take: the
    vertices in single precision, the edges the host computes, no color
    attribute, no material. *)
Definition plain_mesh `{env : Env} (b : bpy) (name : string)
    (va : ndarray R) (ta : ndarray Z) : Mesh :=
  mk_Mesh (unique_name name (map mesh_name (meshes b)))
          (map stored (rows va))
          (match rows ta with [] => [] | _ => calc_edges [] (rows ta) end)
          (rows ta) [] [].

(** The mesh [mesh_from_tri] leaves behind when the host refuses the
    triangles: the vertices, and as many faces with no index set. *)
Definition refused_mesh `{env : Env} (b : bpy) (name : string)
    (va : ndarray R) (ta : ndarray Z) : Mesh :=
  mk_Mesh (unique_name name (map mesh_name (meshes b)))
          (map stored (rows va)) [] (unset (rows ta)) [] [].

(** A computation on the host alone: what it returns and what it does to
    the host depend on the host only, and it leaves the file system, the
    streams and the time as they are, however it ends. *)
Definition host_only {A} (m : M A) : Prop :=
  forall w f s c,
    m (mk_world (host w) f s c) =
    (fst (m w), mk_world (host (snd (m w))) f s c).

(** The outcome of a call, with the output path replaced in the render
    settings when the call returned normally. *)
Definition refile {A} (p : string) (x : result A * world) : result A * world :=
  match x with
  | (Ok a, w') =>
      (Ok a, mk_world (with_filepath p (host w')) (fs w') (streams w') (clock w'))
  | (Raise e, w') => (Raise e, w')
  end.

Definition same_but_path {A} (p : string) (m1 m2 : M A) : Prop :=
  forall w, m1 w = refile p (m2 w).

(** The path the undecorated function is called with. *)
Definition path_used `{env : Env} (output : output_arg) (w : world) : string :=
  match output with
  | OutPath p => p
  | OutStream _ => String.append (mkdtemp (fs w)) "/out.png"
  end.

(** ** Single precision

    The IEEE 754 binary32 number nearest to a real number (ties to even),
    for the reals in its range. *)

Definition floor (x : R) : Z := Int_part x.

Definition nearest_even (y : R) : Z :=
  let n := floor y in
  if Rlt_dec (y - IZR n) (1 / 2) then n
  else if Rlt_dec (1 / 2) (y - IZR n) then (n + 1)%Z
  else if Z.even n then n else (n + 1)%Z.

(** The exponent [e] with [2^e <= |x| < 2^(e+1)]. *)
Definition binade (x : R) : Z := floor (ln (Rabs x) / ln 2).

Definition binary32 (x : R) : R :=
  if Req_dec_T x 0 then 0%R
  else
    let q := powerRZ 2 (Z.max (binade x) (-126) - 23) in
    (IZR (nearest_even (x / q)) * q)%R.

(** Python's [0.1]: the double nearest to one tenth. *)
Definition tenth : R := (3602879701896397 / 36028797018963968)%R.

(** A small host to run the module on.  Its renderer makes an image that
    depends on the resolution, on what is linked to the scene and on the
    time; it saves to the render filepath with [.png] put after it unless
    it is there, and cannot save under [/dev/null/], which is no
    directory; it takes names as asked for, has white as the default
    color, holds floats as binary32, rounds the entries of its matrices
    and vectors to binary32 and computes the edges around each face.  Its
    numpy is 2.2 or later: the truth value of an empty array is an
    error. *)
Module Example.

Fixpoint ends_with (suffix s : string) : bool :=
  String.eqb s suffix ||
  match s with
  | EmptyString => false
  | String _ rest => ends_with suffix rest
  end.

Definition png_path (b : bpy) (p : string) : result string :=
  if String.prefix "/dev/null/" p then Raise RuntimeError
  else if ends_with ".png" p then Ok p
  else Ok (String.append p ".png").

Definition edge_of (a b : Z) : list Z := [Z.min a b; Z.max a b].

Fixpoint ring_edges (first : Z) (l : list Z) : list (list Z) :=
  match l with
  | [] => []
  | a :: rest =>
      match rest with
      | [] => [edge_of a first]
      | b :: _ => edge_of a b :: ring_edges first rest
      end
  end.

Definition face_edges (f : list Z) : list (list Z) :=
  match f with
  | [] => []
  | a :: _ => ring_edges a f
  end.

Definition same_edge (e1 e2 : list Z) : bool :=
  Nat.eqb (length e1) (length e2) &&
  forallb (fun p => Z.eqb (fst p) (snd p)) (combine e1 e2).

Definition add_edge (es : list (list Z)) (e : list Z) : list (list Z) :=
  if existsb (same_edge e) es then es else es ++ [e].

Definition ring_calc_edges (es faces : list (list Z)) : list (list Z) :=
  fold_left add_edge (concat (map face_edges faces)) es.

Definition image (b : bpy) (c : nat) : list Byte.byte :=
  repeat Byte.x2a (Z.to_nat (resolution_x (render (scene b)))) ++
  repeat Byte.x23 (length (scene_objects (scene b))) ++
  repeat Byte.x74 c.

Definition round3 (v : vec3) : vec3 :=
  let '(x, y, z) := v in (binary32 x, binary32 y, binary32 z).

Definition env : Env :=
  mk_Env
    image
    png_path
    (fun name _ => name)
    [1; 1; 1; 1]%R
    (Raise ValueError)
    (fun _ => "/tmp/tmpdir")
    binary32
    ring_calc_edges
    (fun e => let '(r0, r1, r2) := to_matrix e in (round3 r0, round3 r1, round3 r2))
    (fun m v => round3 (matvec m v)).

(** The same host with a renderer that puts no time into the image. *)
Definition still_env : Env :=
  mk_Env
    (fun b _ => image b 0)
    png_path
    (fun name _ => name)
    [1; 1; 1; 1]%R
    (Raise ValueError)
    (fun _ => "/tmp/tmpdir")
    binary32
    ring_calc_edges
    (fun e => let '(r0, r1, r2) := to_matrix e in (round3 r0, round3 r1, round3 r2))
    (fun m v => round3 (matvec m v)).

(** A start-up scene: one child collection, nothing linked to the root,
    every stream empty. *)
Definition w0 : world :=
  mk_world
    (mk_bpy [] [] [] [] []
            (mk_Scene [0%nat] [] None
                      (mk_RenderSettings "BLENDER_EEVEE" 1920 1080 ""))
            true)
    (fun _ => None)
    (fun _ => mk_stream [] 0)
    0.

(** One triangle. *)
Definition vertices : array_like R :=
  Seq [Seq [Num 0; Num 0; Num 0];
       Seq [Num 1; Num 0; Num 0];
       Seq [Num 0; Num 1; Num 0]]%R.

Definition triangles : array_like Z :=
  Seq [Seq [Num 0; Num 1; Num 2]]%Z.

Definition red : array_like R := Seq [Num 1; Num 0; Num 0; Num 1]%R.

(** Colors for two of the three vertices, as nested lists. *)
Definition two_colors : array_like R := Seq [red; red].

(** Colors for the three vertices, as nested lists and as an array. *)
Definition three_colors : array_like R := Seq [red; red; red].

Definition color_array : ndarray R :=
  mk_ndarray [3%nat; 4%nat] [1; 0; 0; 1; 1; 0; 0; 1; 1; 0; 0; 1]%R.

(** The mesh [mesh_from_tri] makes of the triangle. *)
Definition triangle_mesh : Mesh :=
  mk_Mesh "mesh"
    (map (map binary32) [[0; 0; 0]; [1; 0; 0]; [0; 1; 0]]%R)
    [[0; 1]; [1; 2]; [0; 2]]%Z [[0; 1; 2]]%Z [] [].

(** The world with the triangle's mesh object in it. *)
Definition w1 : world :=
  snd (mesh_from_tri (env := env) "mesh" vertices triangles w0).

End Example.

(** A computation that works on meshes and materials only: the objects,
    cameras, lights, the scene and the view layer are as before, however
    it ends. *)
Definition scene_frame {A} (m : M A) : Prop :=
  forall w,
    objects (host (snd (m w))) = objects (host w) /\
    cameras (host (snd (m w))) = cameras (host w) /\
    lights (host (snd (m w))) = lights (host w) /\
    scene (host (snd (m w))) = scene (host w) /\
    use_denoising (host (snd (m w))) = use_denoising (host w).

(** A list with the elements from position [i] on replaced by [xs], as
    far as [xs] goes. *)
Definition overwrite {A} (i : nat) (xs d : list A) : list A :=
  firstn i d ++ xs ++ skipn (i + length xs) d.

(** The world with the data of one color attribute replaced. *)
Definition put_attr_data (attr : nat * nat) (d : list (list R)) (w : world)
  : world :=
  mk_world
    (set_meshes (update_nth (fst attr) (fun m =>
       mk_Mesh (mesh_name m) (mesh_vertices m) (mesh_edges m) (mesh_faces m)
               (update_nth (snd attr) (fun a =>
                  mk_Attribute (attr_name a) (attr_type a) (attr_domain a) d)
                  (color_attributes m))
               (mesh_materials m)))
       (host w))
    (fs w) (streams w) (clock w).

(** The world with one more color attribute on a mesh. *)
Definition with_attribute (mesh : nat) (a : Attribute) (w : world) : world :=
  mk_world
    (set_meshes (update_nth mesh (fun m =>
       mk_Mesh (mesh_name m) (mesh_vertices m) (mesh_edges m) (mesh_faces m)
               (color_attributes m ++ [a]) (mesh_materials m)))
       (host w))
    (fs w) (streams w) (clock w).

(** * Properties *)

Unset Implicit Arguments.

(** ** Lists and the monad *)

Lemma nth_error_update_nth_eq {A} (f : A -> A) (l : list A) (i : nat) :
  nth_error (update_nth i f l) i = option_map f (nth_error l i).
Proof.
  revert i; induction l as [|x l IH]; intros [|i]; simpl; auto.
Qed.

Lemma nth_error_update_nth_neq {A} (f : A -> A) (l : list A) (i j : nat) :
  i <> j -> nth_error (update_nth i f l) j = nth_error l j.
Proof.
  revert i j; induction l as [|x l IH]; intros [|i] [|j] H; simpl; auto;
    congruence.
Qed.

Lemma length_update_nth {A} (f : A -> A) (l : list A) (i : nat) :
  length (update_nth i f l) = length l.
Proof.
  revert i; induction l as [|x l IH]; intros [|i]; simpl; auto.
Qed.

Lemma nth_error_snoc {A} (l : list A) (x : A) :
  nth_error (l ++ [x]) (length l) = Some x.
Proof.
  induction l; simpl; auto.
Qed.

Lemma nth_error_snoc_lt {A} (l : list A) (x : A) (i : nat) :
  (i < length l)%nat -> nth_error (l ++ [x]) i = nth_error l i.
Proof.
  intros H; apply nth_error_app1; exact H.
Qed.

Lemma update_nth_snoc {A} (f : A -> A) (l : list A) (x : A) :
  update_nth (length l) f (l ++ [x]) = l ++ [f x].
Proof.
  induction l as [|y l IH]; simpl; [reflexivity | now rewrite IH].
Qed.

Lemma update_nth_snoc_lt {A} (f : A -> A) (l : list A) (x : A) (i : nat) :
  (i < length l)%nat -> update_nth i f (l ++ [x]) = update_nth i f l ++ [x].
Proof.
  revert i; induction l as [|y l IH]; intros [|i] H; simpl in *; try lia; auto.
  rewrite IH by lia. reflexivity.
Qed.

Lemma bind_ok_inv {A B} (m : M A) (k : A -> M B) w b w' :
  bind m k w = (Ok b, w') ->
  exists a w1, m w = (Ok a, w1) /\ k a w1 = (Ok b, w').
Proof.
  unfold bind. destruct (m w) as [[a|e] w1]; [|discriminate].
  intros H. exists a, w1. auto.
Qed.

(** ** Proof automation *)

(** Unfolding one layer of monadic plumbing and of the host records,
    leaving numbers and lists alone. *)
Ltac run_monad :=
  lazy beta iota zeta delta
    [bind ret raise lift get_host modify_host py_assert
     set_meshes set_materials set_cameras set_lights set_objects set_scene
     set_use_denoising set_children set_scene_objects set_scene_camera
     set_render set_engine put_resolution_x put_resolution_y set_filepath].

Ltac run_fields :=
  cbn beta iota zeta delta
    [fst snd host fs streams clock meshes materials cameras lights objects
     scene use_denoising children scene_objects scene_camera render
     engine resolution_x resolution_y filepath
     cam_name lens light_name light_type energy
     obj_name obj_data location rotation_euler].

Ltac run := repeat (progress (run_monad; run_fields)).

(** Running the scene-building calls of [render_tri] on a world given by
    its fields. *)
Ltac crunch :=
  lazy beta iota zeta delta
    [bind ret raise lift get_host modify_host py_assert
     set_meshes set_materials set_cameras set_lights set_objects set_scene
     set_use_denoising set_children set_scene_objects set_scene_camera
     set_render set_engine put_resolution_x put_resolution_y set_filepath
     fst snd host fs streams clock meshes materials cameras lights objects
     scene use_denoising children scene_objects scene_camera render
     engine resolution_x resolution_y filepath
     cam_name lens light_name light_type energy
     obj_name obj_data location rotation_euler
     objects_link cameras_new set_lens get_camera objects_new
     set_location set_rotation_euler get_object lights_new set_energy
     get_light without_children].

Ltac exec := repeat (crunch; rewrite ?nth_error_snoc, ?update_nth_snoc).

(** A run that ends well has passed the host's check of the resolution. *)
Ltac in_range kw :=
  unfold set_resolution_x, set_resolution_y, store_int;
  (destruct (in_int32 (Kw.resolution_x kw));
   [|exec; let E := fresh in intros E; discriminate E]);
  (destruct (in_int32 (Kw.resolution_y kw));
   [|exec; let E := fresh in intros E; discriminate E]).

(** ** Shapes *)

Lemma conformingb_spec {A} (a : ndarray A) (cols : nat) :
  conformingb a cols = true <-> conforming a cols.
Proof.
  unfold conformingb, conforming, ndim.
  destruct (shape a) as [|n [|c [|x r]]]; simpl;
    try (split; [discriminate | intros [H1 H2]; discriminate]).
  rewrite Nat.eqb_eq. split.
  - intros ->; auto.
  - intros [_ H]; congruence.
Qed.

Lemma conforming_shape {A} (a : ndarray A) (cols : nat) :
  conforming a cols <-> exists n, shape a = [n; cols].
Proof.
  rewrite <- conformingb_spec. unfold conformingb.
  destruct (shape a) as [|n [|c [|x r]]]; simpl;
    try (split; [discriminate | intros [k H]; discriminate]).
  rewrite Nat.eqb_eq. split.
  - intros ->; eauto.
  - intros [k H]; congruence.
Qed.

(** The assertion of [mesh_from_tri] never fails on the subscript: the
    dimensions are tested first. *)
Lemma mesh_assertion_value (va : ndarray R) (ta : ndarray Z) :
  py_and (Ok (Nat.eqb (ndim va) 2))
    (py_and (Ok (Nat.eqb (ndim ta) 2))
       (py_and (shape_at_is va 1 3) (shape_at_is ta 1 3)))
  = Ok (conformingb va 3 && conformingb ta 3).
Proof.
  unfold conformingb, shape_at_is, shape_at, ndim.
  destruct (shape va) as [|n [|c [|x r]]]; simpl; try reflexivity;
    destruct (shape ta) as [|n' [|c' [|x' r']]]; simpl; try reflexivity;
    destruct (Nat.eqb c 3); simpl; reflexivity.
Qed.

(** The assertion of [add_vertex_colors]. *)
Lemma color_assertion_value (ca : ndarray R) :
  py_and (Ok (Nat.eqb (ndim ca) 2)) (shape_at_is ca 1 4)
  = Ok (conformingb ca 4).
Proof.
  unfold conformingb, shape_at_is, shape_at, ndim.
  destruct (shape ca) as [|n [|c [|x r]]]; simpl; reflexivity.
Qed.

(** ** mesh_from_tri *)

(** What [mesh_from_tri] does once its assertion holds, on triangles the
    host can take. *)
Lemma mesh_from_tri_ok `{env : Env} name v t va ta w :
  asarray v = Ok va -> asarray_int t = Ok ta ->
  conformingb va 3 && conformingb ta 3 = true ->
  indices_fit (rows ta) = true ->
  mesh_from_tri name v t w =
  (Ok (length (objects (host w))),
   mk_world
     (mk_bpy
        (meshes (host w) ++
           [mk_Mesh (unique_name name (map mesh_name (meshes (host w))))
                    (map stored (rows va))
                    (match rows ta with
                     | [] => []
                     | _ => calc_edges [] (rows ta)
                     end)
                    (rows ta) [] []])
        (materials (host w)) (cameras (host w)) (lights (host w))
        (objects (host w) ++
           [mk_Object (unique_name name (map obj_name (objects (host w))))
                      (MeshData (length (meshes (host w))))
                      (0, 0, 0)%R (0, 0, 0)%R])
        (scene (host w)) (use_denoising (host w)))
     (fs w) (streams w) (clock w)).
Proof.
  intros Hv Ht Hc Hi. unfold mesh_from_tri, meshes_new, from_pydata, objects_new.
  rewrite Hv, Ht. run. rewrite mesh_assertion_value, Hc. run.
  rewrite nth_error_snoc. change (indices_fit []) with true. rewrite Hi.
  cbv beta iota delta [andb]. run.
  rewrite update_nth_snoc. unfold edges_after. simpl.
  destruct (rows ta); reflexivity.
Qed.

(** What it does on triangles the host refuses: the mesh is there, with
    its vertices and with faces that have no index set, and no object is
    made of it. *)
Lemma mesh_from_tri_refused `{env : Env} name v t va ta w :
  asarray v = Ok va -> asarray_int t = Ok ta ->
  conformingb va 3 && conformingb ta 3 = true ->
  indices_fit (rows ta) = false ->
  mesh_from_tri name v t w =
  (Raise TypeError,
   mk_world
     (mk_bpy
        (meshes (host w) ++ [refused_mesh (host w) name va ta])
        (materials (host w)) (cameras (host w)) (lights (host w))
        (objects (host w)) (scene (host w)) (use_denoising (host w)))
     (fs w) (streams w) (clock w)).
Proof.
  intros Hv Ht Hc Hi. unfold mesh_from_tri, meshes_new, from_pydata, objects_new.
  rewrite Hv, Ht. run. rewrite mesh_assertion_value, Hc. run.
  rewrite nth_error_snoc. change (indices_fit []) with true. rewrite Hi.
  cbv beta iota delta [andb]. run.
  rewrite update_nth_snoc. reflexivity.
Qed.

(** What it does when the assertion fails: nothing. *)
Lemma mesh_from_tri_fail `{env : Env} name v t va ta w :
  asarray v = Ok va -> asarray_int t = Ok ta ->
  conformingb va 3 && conformingb ta 3 = false ->
  mesh_from_tri name v t w = (Raise AssertionError, w).
Proof.
  intros Hv Ht Hc. unfold mesh_from_tri.
  rewrite Hv, Ht. run. rewrite mesh_assertion_value, Hc. reflexivity.
Qed.

(** C3, as the code has it. Once both arguments are converted to arrays,
    [mesh_from_tri] raises [AssertionError] exactly when the vertex array
    or the triangle array is not two-dimensional with 3 columns.  On
    conforming arrays whose indices are 32-bit integers it returns a new
    object whose mesh holds the rows of the vertex array in single
    precision and the rows of the triangle array.  On conforming arrays
    with an index that is no 32-bit integer the host raises [TypeError]
    after the mesh is made: the mesh stays among the host's meshes, with
    its vertices, and no object is made. *)
Theorem mesh_from_tri_assertion `{env : Env} name v t va ta w :
  asarray v = Ok va -> asarray_int t = Ok ta ->
  (fst (mesh_from_tri name v t w) = Raise AssertionError <->
   ~ (conforming va 3 /\ conforming ta 3)) /\
  (conforming va 3 /\ conforming ta 3 -> indices_fit (rows ta) = true ->
   exists obj mesh o m,
     fst (mesh_from_tri name v t w) = Ok obj /\
     nth_error (objects (host (snd (mesh_from_tri name v t w)))) obj = Some o /\
     obj_data o = MeshData mesh /\
     nth_error (meshes (host (snd (mesh_from_tri name v t w)))) mesh = Some m /\
     mesh_vertices m = map stored (rows va) /\ mesh_faces m = rows ta) /\
  (conforming va 3 /\ conforming ta 3 -> indices_fit (rows ta) = false ->
   fst (mesh_from_tri name v t w) = Raise TypeError /\
   (exists m,
      meshes (host (snd (mesh_from_tri name v t w))) = meshes (host w) ++ [m] /\
      mesh_name m = unique_name name (map mesh_name (meshes (host w))) /\
      mesh_vertices m = map stored (rows va)) /\
   objects (host (snd (mesh_from_tri name v t w))) = objects (host w)).
Proof.
  intros Hv Ht.
  destruct (conformingb va 3 && conformingb ta 3) eqn:Hc.
  - assert (Hconf : conforming va 3 /\ conforming ta 3).
    { apply andb_true_iff in Hc. destruct Hc as [H1 H2].
      split; apply conformingb_spec; assumption. }
    destruct (indices_fit (rows ta)) eqn:Hi.
    + rewrite (mesh_from_tri_ok name v t va ta w Hv Ht Hc Hi).
      split; [|split].
      * split; [discriminate | intros H; exfalso; apply H; exact Hconf].
      * intros _ _. do 4 eexists. run.
        split; [reflexivity|]. split; [apply nth_error_snoc|].
        split; [reflexivity|]. split; [apply nth_error_snoc|].
        split; reflexivity.
      * intros _ H. discriminate H.
    + rewrite (mesh_from_tri_refused name v t va ta w Hv Ht Hc Hi).
      split; [|split].
      * split; [discriminate | intros H; exfalso; apply H; exact Hconf].
      * intros _ H. discriminate H.
      * intros _ _. run. split; [reflexivity|]. split; [|reflexivity].
        eexists. split; [reflexivity|]. split; reflexivity.
  - rewrite (mesh_from_tri_fail name v t va ta w Hv Ht Hc).
    assert (Hn : ~ (conforming va 3 /\ conforming ta 3)).
    { intros [H1 H2]. apply conformingb_spec in H1. apply conformingb_spec in H2.
      rewrite H1, H2 in Hc. discriminate. }
    split; [split; auto | split; intros H; contradiction].
Qed.

(** ** add_vertex_colors *)

Lemma nth_error_array_rows {A} (cols n i : nat) (d : list A) :
  (i < n)%nat ->
  nth_error (array_rows n cols d) i = Some (firstn cols (skipn (i * cols) d)).
Proof.
  revert i d; induction n as [|n IH]; intros i d H; [lia|].
  destruct i as [|i]; simpl.
  - reflexivity.
  - rewrite IH by lia. rewrite skipn_skipn. do 3 f_equal. lia.
Qed.

Lemma length_array_rows {A} (cols n : nat) (d : list A) :
  length (array_rows n cols d) = n.
Proof.
  revert d; induction n as [|n IH]; intros d; simpl; auto.
Qed.

Lemma set_attr_color_ok `{env : Env} mesh attr i color w a :
  attr_at w mesh attr a ->
  (i < length (attr_data a))%nat ->
  exists w',
    set_attr_color (mesh, attr) i color w = (Ok tt, w') /\
    attr_at w' mesh attr
      (mk_Attribute (attr_name a) (attr_type a) (attr_domain a)
                    (update_nth i (fun _ => stored color) (attr_data a))) /\
    objects (host w') = objects (host w) /\
    materials (host w') = materials (host w).
Proof.
  intros [m [Hm Ha]] Hi.
  unfold set_attr_color, get_attr, get_mesh. run. rewrite Hm. run.
  rewrite Ha. run.
  apply Nat.ltb_lt in Hi. rewrite Hi.
  eexists. split; [reflexivity|]. split; [|split; reflexivity].
  unfold attr_at. run.
  rewrite nth_error_update_nth_eq, Hm. simpl.
  eexists. split; [reflexivity|]. simpl.
  rewrite nth_error_update_nth_eq, Ha. reflexivity.
Qed.

Lemma set_attr_color_fail `{env : Env} mesh attr i color w a :
  attr_at w mesh attr a ->
  (length (attr_data a) <= i)%nat ->
  set_attr_color (mesh, attr) i color w = (Raise IndexError, w).
Proof.
  intros [m [Hm Ha]] Hi.
  unfold set_attr_color, get_attr, get_mesh. run. rewrite Hm. run.
  rewrite Ha. run.
  apply Nat.ltb_ge in Hi. rewrite Hi. reflexivity.
Qed.

(** The loop copies its rows to consecutive entries and leaves the
    entries before them alone. *)
Lemma copy_colors_ok `{env : Env} mesh attr colors :
  forall i w a,
    attr_at w mesh attr a ->
    (i + length colors <= length (attr_data a))%nat ->
    exists w' a',
      copy_colors (mesh, attr) i colors w = (Ok tt, w') /\
      attr_at w' mesh attr a' /\
      attr_name a' = attr_name a /\ attr_type a' = attr_type a /\
      attr_domain a' = attr_domain a /\
      length (attr_data a') = length (attr_data a) /\
      (forall j, (j < length colors)%nat ->
                 nth_error (attr_data a') (i + j) =
                 nth_error (map stored colors) j) /\
      (forall j, (j < i)%nat ->
                 nth_error (attr_data a') j = nth_error (attr_data a) j) /\
      objects (host w') = objects (host w) /\
      materials (host w') = materials (host w).
Proof.
  induction colors as [|color rest IH]; intros i w a Hat Hlen.
  - exists w, a. simpl. repeat split; auto. intros j Hj; simpl in Hj; lia.
  - simpl in Hlen.
    destruct (set_attr_color_ok mesh attr i color w a Hat) as [w1 [Hrun [Hat1 [Ho1 Hm1]]]];
      [lia|].
    destruct (IH (S i) w1 _ Hat1) as
      [w' [a' [Hrun' [Hat' [Hn [Ht [Hd [Hl [Hnew [Hold [Ho Hm]]]]]]]]]]].
    { simpl. rewrite length_update_nth. lia. }
    simpl in Hn, Ht, Hd, Hl, Hold. rewrite length_update_nth in Hl.
    exists w', a'. simpl copy_colors. unfold bind at 1. rewrite Hrun.
    split; [exact Hrun'|]. repeat split; auto; try congruence.
    + intros [|j] Hj.
      * rewrite Nat.add_0_r, Hold by lia.
        rewrite nth_error_update_nth_eq.
        destruct (nth_error (attr_data a) i) eqn:E; [reflexivity|].
        apply nth_error_None in E. lia.
      * simpl in Hj. replace (i + S j)%nat with (S i + j)%nat by lia.
        rewrite Hnew by lia. reflexivity.
    + intros j Hj. rewrite Hold by lia.
      apply nth_error_update_nth_neq. lia.
Qed.

(** With more rows than entries the loop runs off the end. *)
Lemma copy_colors_fail `{env : Env} mesh attr colors :
  forall i w a,
    attr_at w mesh attr a ->
    (i <= length (attr_data a))%nat ->
    (length (attr_data a) < i + length colors)%nat ->
    fst (copy_colors (mesh, attr) i colors w) = Raise IndexError.
Proof.
  induction colors as [|color rest IH]; intros i w a Hat Hi Hlen.
  - simpl in Hlen. lia.
  - simpl in Hlen. simpl copy_colors. unfold bind at 1.
    destruct (Nat.eq_dec i (length (attr_data a))) as [E|E].
    + rewrite (set_attr_color_fail mesh attr i color w a Hat) by lia. reflexivity.
    + destruct (set_attr_color_ok mesh attr i color w a Hat) as [w1 [Hrun [Hat1 _]]];
        [lia|].
      rewrite Hrun. apply (IH (S i) w1 _ Hat1); simpl;
        rewrite length_update_nth; lia.
Qed.

Lemma add_vertex_colors_reject `{env : Env} obj name colors ca w :
  asarray colors = Ok ca ->
  conformingb ca 4 = false ->
  add_vertex_colors obj name colors w = (Raise AssertionError, w).
Proof.
  intros Hc Hs. unfold add_vertex_colors. rewrite Hc. run.
  rewrite color_assertion_value, Hs. reflexivity.
Qed.

(** Past the assertion, a fresh attribute sized by the mesh's vertices is
    allocated and the copy loop runs on it. *)
Lemma add_vertex_colors_allocate `{env : Env} obj name colors ca w mesh m :
  asarray colors = Ok ca ->
  conformingb ca 4 = true ->
  mesh_of w obj mesh m ->
  exists w1,
    attr_at w1 mesh (length (color_attributes m))
      (mk_Attribute (unique_name name (map attr_name (color_attributes m)))
                    "FLOAT_COLOR" "POINT"
                    (repeat default_color (length (mesh_vertices m)))) /\
    objects (host w1) = objects (host w) /\
    materials (host w1) = materials (host w) /\
    add_vertex_colors obj name colors w =
    (copy_colors (mesh, length (color_attributes m)) 0 (rows ca) ;;
     ret (mesh, length (color_attributes m))) w1.
Proof.
  intros Hc Hs [o [Ho [Hd Hm]]].
  unfold add_vertex_colors, obj_mesh, color_attributes_new, get_mesh.
  rewrite Hc. run. rewrite color_assertion_value, Hs. run.
  rewrite Ho, Hd. run. rewrite Hm. run.
  eexists. split; [|split; [|split]]; cycle 3.
  - reflexivity.
  - unfold attr_at. run. rewrite nth_error_update_nth_eq, Hm. simpl.
    eexists. split; [reflexivity|]. simpl. apply nth_error_snoc.
  - reflexivity.
  - reflexivity.
Qed.

Lemma rows_shape {A} (a : ndarray A) (K cols : nat) :
  shape a = [K; cols] -> rows a = array_rows K cols (data a).
Proof.
  unfold rows. intros ->. reflexivity.
Qed.

Lemma conformingb_shape {A} (a : ndarray A) (K cols : nat) :
  shape a = [K; cols] -> conformingb a cols = true.
Proof.
  unfold conformingb. intros ->. apply Nat.eqb_refl.
Qed.

(** A color array of K rows and 4 columns is accepted on a mesh of at
    least K vertices. *)
Lemma add_vertex_colors_accepts `{env : Env} obj name colors ca w mesh m K :
  asarray colors = Ok ca ->
  shape ca = [K; 4%nat] ->
  mesh_of w obj mesh m ->
  (K <= length (mesh_vertices m))%nat ->
  is_ok (fst (add_vertex_colors obj name colors w)) = true.
Proof.
  intros Hc Hs Hobj HK.
  destruct (add_vertex_colors_allocate obj name colors ca w mesh m Hc
              (conformingb_shape _ _ _ Hs) Hobj)
    as [w1 [Hat [_ [_ Hrun]]]].
  rewrite Hrun, (rows_shape _ _ _ Hs).
  destruct (copy_colors_ok mesh _ (array_rows K 4 (data ca)) 0 _ _ Hat)
    as [w' [a' [Hcopy _]]].
  { simpl. rewrite length_array_rows, repeat_length. lia. }
  unfold bind. rewrite Hcopy. reflexivity.
Qed.

(** C6, as the code has it. For a color array of K rows and 4 columns and
    an object whose mesh has at least K vertices (K of them when the array
    conforms to the mesh), [add_vertex_colors] returns a new attribute of
    the object's mesh, of type FLOAT_COLOR on the POINT domain, with one
    entry per vertex, and entry [i] holds, for every [i < K], what the
    host makes of row [i] of the array: its four numbers in single
    precision. *)
Theorem add_vertex_colors_copies `{env : Env} obj name colors ca w mesh m K :
  asarray colors = Ok ca ->
  shape ca = [K; 4%nat] ->
  mesh_of w obj mesh m ->
  (K <= length (mesh_vertices m))%nat ->
  exists attr a,
    fst (add_vertex_colors obj name colors w) = Ok attr /\
    fst attr = mesh /\
    attr_at (snd (add_vertex_colors obj name colors w)) (fst attr) (snd attr) a /\
    attr_type a = "FLOAT_COLOR" /\ attr_domain a = "POINT" /\
    length (attr_data a) = length (mesh_vertices m) /\
    forall i, (i < K)%nat ->
              nth_error (attr_data a) i = Some (stored (row ca 4 i)).
Proof.
  intros Hc Hs Hobj HK.
  destruct (add_vertex_colors_allocate obj name colors ca w mesh m Hc
              (conformingb_shape _ _ _ Hs) Hobj)
    as [w1 [Hat [_ [_ Hrun]]]].
  rewrite Hrun, (rows_shape _ _ _ Hs).
  destruct (copy_colors_ok mesh _ (array_rows K 4 (data ca)) 0 _ _ Hat)
    as [w' [a' [Hcopy [Hat' [_ [Ht [Hd [Hl [Hnew _]]]]]]]]].
  { simpl. rewrite length_array_rows, repeat_length. lia. }
  simpl in Ht, Hd, Hl. rewrite repeat_length in Hl.
  exists (mesh, length (color_attributes m)), a'.
  unfold bind. rewrite Hcopy. simpl.
  repeat split; auto.
  intros i Hi. rewrite <- (Nat.add_0_l i) at 1.
  rewrite Hnew by (rewrite length_array_rows; exact Hi).
  rewrite nth_error_map, nth_error_array_rows by exact Hi. reflexivity.
Qed.

(** C4, as the code has it. The assertion of [add_vertex_colors] rejects
    exactly the color arrays that are not two-dimensional with 4 columns.
    It does not compare the number of rows with the number N of vertices
    of the mesh: an array of K rows and 4 columns with K <= N (the
    conforming one among them) is accepted, and one with more rows than
    vertices passes the assertion and runs off the end of the attribute
    with [IndexError]. *)
Theorem add_vertex_colors_shape_check `{env : Env} obj name colors ca w mesh m :
  asarray colors = Ok ca ->
  mesh_of w obj mesh m ->
  (fst (add_vertex_colors obj name colors w) = Raise AssertionError <->
   ~ conforming ca 4) /\
  (forall K, shape ca = [K; 4%nat] -> (K <= length (mesh_vertices m))%nat ->
             is_ok (fst (add_vertex_colors obj name colors w)) = true) /\
  (forall K, shape ca = [K; 4%nat] -> (length (mesh_vertices m) < K)%nat ->
             fst (add_vertex_colors obj name colors w) = Raise IndexError).
Proof.
  intros Hc Hobj.
  assert (Hle : forall K, shape ca = [K; 4%nat] ->
                          (K <= length (mesh_vertices m))%nat ->
                          is_ok (fst (add_vertex_colors obj name colors w)) = true).
  { intros K Hs HK.
    exact (add_vertex_colors_accepts obj name colors ca w mesh m K Hc Hs Hobj HK). }
  assert (Hgt : forall K, shape ca = [K; 4%nat] ->
                          (length (mesh_vertices m) < K)%nat ->
                          fst (add_vertex_colors obj name colors w) = Raise IndexError).
  { intros K Hs HK.
    destruct (add_vertex_colors_allocate obj name colors ca w mesh m Hc
              (conformingb_shape _ _ _ Hs) Hobj)
      as [w1 [Hat [_ [_ Hrun]]]].
    rewrite Hrun, (rows_shape _ _ _ Hs). unfold bind.
    pose proof (copy_colors_fail mesh _ (array_rows K 4 (data ca)) 0 _ _ Hat) as Hf.
    simpl in Hf. rewrite length_array_rows, repeat_length in Hf.
    specialize (Hf ltac:(lia) HK).
    destruct (copy_colors _ 0 _ w1) as [r w']. simpl in Hf. subst r. reflexivity. }
  split; [|split; assumption].
  destruct (conformingb ca 4) eqn:Hb.
  - pose proof (proj1 (conformingb_spec ca 4) Hb) as Hconf.
    destruct (proj1 (conforming_shape ca 4) Hconf) as [K Hs].
    split; [|intros H; contradiction].
    destruct (le_lt_dec K (length (mesh_vertices m))) as [HK|HK].
    + specialize (Hle K Hs HK). intros E. rewrite E in Hle. discriminate.
    + rewrite (Hgt K Hs HK). discriminate.
  - rewrite (add_vertex_colors_reject obj name colors ca w Hc Hb).
    split; [|reflexivity].
    intros _ Hconf. apply conformingb_spec in Hconf. congruence.
Qed.

(** ** render_tri: clearing the scene *)

Lemma remove_first_head (c : nat) (l : list nat) :
  remove_first c (c :: l) = Some l.
Proof.
  simpl. rewrite Nat.eqb_refl. reflexivity.
Qed.

Lemma unlink_each (l : list nat) :
  forall w, children (scene (host w)) = l ->
            for_each l children_unlink w = (Ok tt, without_children w).
Proof.
  induction l as [|c rest IH]; intros w Hw.
  - simpl. unfold ret, without_children, set_scene, set_children.
    destruct w as [[ms mats cs ls os [ch so sc r] d] f s c]. simpl in *.
    rewrite Hw. reflexivity.
  - simpl for_each. unfold bind at 1. unfold children_unlink at 1.
    run. rewrite Hw, remove_first_head. run.
    rewrite IH by reflexivity. reflexivity.
Qed.

(** The clearing loop unlinks every child collection, and nothing else:
    the objects linked to the root collection stay linked. *)
Lemma clear_scene_run (w : world) :
  clear_scene w = (Ok tt, without_children w).
Proof.
  unfold clear_scene. run. apply unlink_each. reflexivity.
Qed.

(** ** render_tri: the world the render operator is invoked in *)

Lemma post_bind {A B} (m : M A) (k : A -> M B) (Q : world -> Prop) :
  (forall a, post (k a) Q) -> post (bind m k) Q.
Proof.
  intros H w b w' E. unfold bind in E.
  destruct (m w) as [[a|e] w1]; [|discriminate].
  exact (H a w1 b w' E).
Qed.

(** The last thing [render_tri] does before rendering is to write the
    render settings: denoising off, engine CYCLES, the caller's
    resolution as far as the host takes it, and the output path. *)
Lemma prepare_render_settings `{env : Env} output v t kw :
  post (render_tri_prepare output v t kw)
       (fun w' =>
          use_denoising (host w') = false /\
          render (scene (host w')) =
          mk_RenderSettings "CYCLES"
            (Z.max 4 (Z.min 65536 (Kw.resolution_x kw)))
            (Z.max 4 (Z.min 65536 (Kw.resolution_y kw)))
            output /\
          in_int32 (Kw.resolution_x kw) = true /\
          in_int32 (Kw.resolution_y kw) = true).
Proof.
  unfold render_tri_prepare.
  do 20 (apply post_bind; intro).
  intros w r w' E.
  apply bind_ok_inv in E. destruct E as [u1 [w1 [E1 E]]].
  apply bind_ok_inv in E. destruct E as [u2 [w2 [E2 E]]].
  apply bind_ok_inv in E. destruct E as [u3 [w3 [E3 E]]].
  apply bind_ok_inv in E. destruct E as [u4 [w4 [E4 E]]].
  unfold set_resolution_x, store_int in E3.
  unfold set_resolution_y, store_int in E4.
  destruct (in_int32 (Kw.resolution_x kw)); [|discriminate E3].
  destruct (in_int32 (Kw.resolution_y kw)); [|discriminate E4].
  unfold modify_host in E1, E2, E. unfold lift, ret, bind, modify_host in E3, E4.
  injection E1 as _ <-. injection E2 as _ <-. injection E3 as _ <-.
  injection E4 as _ <-. injection E as _ <-.
  destruct w as [[ms mats cs ls os [ch so sc rs] d] f s c]. simpl. auto.
Qed.

Lemma render_tri_impl_run `{env : Env} output v t kw w :
  render_tri_impl output v t kw w =
  match render_tri_prepare output v t kw w with
  | (Ok _, w') => ops_render_render true w'
  | (Raise e, w') => (Raise e, w')
  end.
Proof.
  reflexivity.
Qed.

Lemma write_file_same p bytes f : write_file p bytes f p = Some bytes.
Proof.
  unfold write_file. rewrite String.eqb_refl. reflexivity.
Qed.

(** An array of more than one element as [colors], or one of no element
    where numpy refuses that too: the truth test raises right after the
    mesh is built, before anything is done about colors. *)
Lemma prepare_array_colors `{env : Env} output v t va ta kw w a e :
  asarray v = Ok va -> asarray_int t = Ok ta ->
  conformingb va 3 && conformingb ta 3 = true ->
  indices_fit (rows ta) = true ->
  Kw.colors kw = Some (Arr a) ->
  ((1 < size a)%nat /\ e = ValueError) \/
  (size a = 0%nat /\ empty_array_truth = Raise e) ->
  exists w',
    render_tri_prepare output v t kw w = (Raise e, w') /\
    meshes (host w') = meshes (host w) ++ [plain_mesh (host w) "mesh" va ta] /\
    materials (host w') = materials (host w) /\
    fs w' = fs w.
Proof.
  intros Hv Ht Hc Hi Hk Hsize.
  unfold render_tri_prepare.
  unfold bind at 1. rewrite clear_scene_run.
  unfold bind at 1. rewrite (mesh_from_tri_ok "mesh" v t va ta _ Hv Ht Hc Hi).
  rewrite Hk.
  assert (E : truth (Arr a) = Raise e).
  { unfold truth. destruct Hsize as [[Hs ->]|[Hs He]].
    - destruct (size a) as [|[|n]]; [lia | lia | reflexivity].
    - rewrite Hs. exact He. }
  rewrite E. clear E.
  destruct w as [[ms mats cs ls os [ch so sc r] d] f s c].
  exec. eexists. split; [reflexivity|]. unfold plain_mesh. crunch. auto.
Qed.

(** No colors: the call goes through to the render settings, with the
    mesh left plain, and links the mesh, the camera and the light to the
    root collection. *)
Lemma prepare_no_colors `{env : Env} output v t va ta kw w :
  asarray v = Ok va -> asarray_int t = Ok ta ->
  conformingb va 3 && conformingb ta 3 = true ->
  indices_fit (rows ta) = true ->
  in_int32 (Kw.resolution_x kw) = true ->
  in_int32 (Kw.resolution_y kw) = true ->
  (Kw.colors kw = None \/
   exists c, Kw.colors kw = Some c /\ truth c = Ok false) ->
  exists w',
    render_tri_prepare output v t kw w = (Ok tt, w') /\
    meshes (host w') = meshes (host w) ++ [plain_mesh (host w) "mesh" va ta] /\
    materials (host w') = materials (host w) /\
    fs w' = fs w /\
    scene_objects (scene (host w')) =
    scene_objects (scene (host w)) ++
      [length (objects (host w)); S (length (objects (host w)));
       S (S (length (objects (host w))))].
Proof.
  intros Hv Ht Hc Hi Hx Hy Hk.
  unfold render_tri_prepare.
  unfold bind at 1. rewrite clear_scene_run.
  unfold bind at 1. rewrite (mesh_from_tri_ok "mesh" v t va ta _ Hv Ht Hc Hi).
  unfold set_resolution_x, set_resolution_y, store_int.
  rewrite Hx, Hy.
  assert (E : (match Kw.colors kw with
               | None => ret tt
               | Some colors =>
                   t <- lift (truth colors) ;;
                   if t then add_vertex_colors_and_material
                               (length (objects (host (without_children w))))
                               "Col" colors ;; ret tt
                   else ret tt
               end) = ret tt).
  { destruct Hk as [-> | [c [-> Hc']]]; [reflexivity|].
    rewrite Hc'. reflexivity. }
  rewrite E. clear E.
  destruct w as [[ms mats cs ls os [ch so sc r] d] f s c].
  exec. eexists. split; [reflexivity|]. unfold plain_mesh. crunch.
  rewrite !length_app, <- !app_assoc. simpl.
  repeat split; auto. do 4 f_equal; lia.
Qed.

(** ** What the module's own code touches *)

Lemma host_only_ret {A} (a : A) : host_only (ret a).
Proof. intros w f s c; reflexivity. Qed.

Lemma host_only_raise {A} (e : exn) : host_only (@raise A e).
Proof. intros w f s c; reflexivity. Qed.

Lemma host_only_lift {A} (r : result A) : host_only (lift r).
Proof. destruct r; [apply host_only_ret | apply host_only_raise]. Qed.

Lemma host_only_get_host : host_only get_host.
Proof. intros w f s c; reflexivity. Qed.

Lemma host_only_modify_host (f : bpy -> bpy) : host_only (modify_host f).
Proof. intros w f' s c; reflexivity. Qed.

Lemma host_only_py_assert (c : result bool) : host_only (py_assert c).
Proof.
  destruct c as [[|]|e]; [apply host_only_ret | apply host_only_raise ..].
Qed.

Lemma host_only_bind {A B} (m : M A) (k : A -> M B) :
  host_only m -> (forall a, host_only (k a)) -> host_only (bind m k).
Proof.
  intros Hm Hk w f s c. unfold bind. rewrite Hm.
  destruct (m w) as [[a|e] w1]; simpl.
  - apply Hk.
  - reflexivity.
Qed.

(** A computation on the host alone leaves the rest of the world as it
    is. *)
Lemma host_only_frame {A} (m : M A) (w : world) :
  host_only m ->
  snd (m w) = mk_world (host (snd (m w))) (fs w) (streams w) (clock w).
Proof.
  intros H. specialize (H w (fs w) (streams w) (clock w)).
  destruct w as [b f s c]. simpl in *. rewrite H at 1. reflexivity.
Qed.

(** It does the same at any time. *)
Lemma host_only_at_time {A} (m : M A) (c : nat) (w : world) :
  host_only m ->
  m (at_time c w) = (fst (m w), at_time c (snd (m w))).
Proof.
  intros H. unfold at_time at 1. rewrite H.
  rewrite (host_only_frame m w H) at 2. reflexivity.
Qed.

Ltac frame_step :=
  first
    [ apply host_only_ret
    | apply host_only_raise
    | apply host_only_lift
    | apply host_only_get_host
    | apply host_only_modify_host
    | apply host_only_py_assert
    | apply host_only_bind; [|intro]
    | match goal with
      | |- host_only (match ?x with _ => _ end) => destruct x
      | |- host_only (if ?x then _ else _) => destruct x
      end ].

Ltac frame := repeat frame_step.

Lemma host_only_copy_colors `{env : Env} attr colors :
  forall i, host_only (copy_colors attr i colors).
Proof.
  induction colors as [|c rest IH]; intros i; simpl.
  - frame.
  - unfold set_attr_color, get_attr, get_mesh. frame. apply IH.
Qed.

Lemma host_only_for_each {A} (l : list A) (body : A -> M unit) :
  (forall x, host_only (body x)) -> host_only (for_each l body).
Proof.
  intros H. induction l as [|x rest IH]; simpl; frame; auto.
Qed.

Lemma host_only_prepare `{env : Env} output v t kw :
  host_only (render_tri_prepare output v t kw).
Proof.
  unfold render_tri_prepare, clear_scene, mesh_from_tri, meshes_new,
    from_pydata, objects_new, add_vertex_colors_and_material,
    add_vertex_colors, obj_mesh, color_attributes_new, get_mesh, get_attr,
    materials_new, set_use_nodes, nodes_lookup, nodes_new, set_layer_name,
    links_new, materials_append, modify_material, get_material, obj_mesh,
    objects_link, cameras_new, set_lens, get_camera, set_location,
    set_rotation_euler, get_object, lights_new, set_energy, get_light,
    set_resolution_x, set_resolution_y.
  repeat first
    [ frame_step
    | apply host_only_copy_colors
    | apply host_only_for_each; intro; unfold children_unlink ].
Qed.

(** ** The output path and the rest of the call *)

Lemma same_but_path_bind {A B} (p : string) (m : M A) (k1 k2 : A -> M B) :
  (forall a, same_but_path p (k1 a) (k2 a)) ->
  same_but_path p (bind m k1) (bind m k2).
Proof.
  intros H w. unfold bind.
  destruct (m w) as [[a|e] w1]; [apply H | reflexivity].
Qed.

(** The output path reaches nothing but the render settings: two calls
    that differ in it fail alike or end in worlds that differ in that
    field only. *)
Lemma prepare_same_but_path `{env : Env} p q v t kw :
  same_but_path p (render_tri_prepare p v t kw) (render_tri_prepare q v t kw).
Proof.
  unfold render_tri_prepare.
  do 24 (apply same_but_path_bind; intro).
  intros w. reflexivity.
Qed.

Lemma render_tri_path `{env : Env} p v t kw w :
  render_tri (OutPath p) v t kw w = render_tri_impl p v t kw w.
Proof.
  reflexivity.
Qed.

(** A path as output, at another time: the time makes no difference
    before the render operator is invoked. *)
Lemma render_tri_path_at_time `{env : Env} p v t kw w c :
  render_tri (OutPath p) v t kw (at_time c w) =
  match render_tri_prepare p v t kw w with
  | (Ok _, w') => ops_render_render true (at_time c w')
  | (Raise e, w') => (Raise e, at_time c w')
  end.
Proof.
  rewrite render_tri_path, render_tri_impl_run.
  rewrite (host_only_at_time _ c w (host_only_prepare p v t kw)).
  destruct (render_tri_prepare p v t kw w) as [[[]|e] w']; reflexivity.
Qed.

(** A stream as output: the image is rendered with a file of a temporary
    directory as render filepath, that file is read back and written to
    the stream, and the directory is removed. *)
Lemma render_tri_stream `{env : Env} h v t kw w :
  render_tri (OutStream h) v t kw w =
  let tmpdir := mkdtemp (fs w) in
  let tmpfile := String.append tmpdir "/out.png" in
  let without_tmpdir (f : string -> option (list Byte.byte)) :=
    fun q => if String.prefix (String.append tmpdir "/") q then None else f q in
  match render_tri_prepare tmpfile v t kw w with
  | (Ok _, w') =>
      match save_path (host w') tmpfile with
      | Ok q =>
          let saved := write_file q (render_image (host w') (clock w')) (fs w') in
          match saved tmpfile with
          | Some bytes =>
              (Ok tt,
               mk_world (host w') (without_tmpdir saved)
                 (fun k => if Nat.eqb k h then stream_write bytes (streams w' h)
                           else streams w' k)
                 (S (clock w')))
          | None =>
              (Raise FileNotFoundError,
               mk_world (host w') (without_tmpdir saved) (streams w')
                        (S (clock w')))
          end
      | Raise e =>
          (Raise e,
           mk_world (host w') (without_tmpdir (fs w')) (streams w')
                    (S (clock w')))
      end
  | (Raise e, w') =>
      (Raise e,
       mk_world (host w') (without_tmpdir (fs w')) (streams w') (clock w'))
  end.
Proof.
  unfold render_tri, _ensure_filename, with_TemporaryDirectory, fspath.
  cbv beta iota zeta. unfold bind at 1. rewrite render_tri_impl_run.
  pose proof (prepare_render_settings
                (String.append (mkdtemp (fs w)) "/out.png") v t kw w) as Hs.
  destruct (render_tri_prepare _ v t kw w) as [[[]|e] w'].
  - destruct (Hs tt w' eq_refl) as [_ [Hr _]].
    unfold ops_render_render. rewrite Hr. run_fields.
    destruct (save_path (host w') _) as [q|e]; [|reflexivity].
    unfold bind, read_file, output_write. run_fields.
    destruct (write_file q _ (fs w') _); reflexivity.
  - reflexivity.
Qed.

(** ** C1: a stream in place of a path *)

(** C1, as the code has it. Provided the host saves an image to the very
    file the render filepath names, for the caller's path and for the
    temporary file, a call with a stream as output ends as the call with
    a path does, whenever that one is made.  When the calls return, the
    file at the path holds the image the host made of the scene at the
    time of that call, and the stream has taken, at the position it was
    at, the image the host made of the same scene with the temporary file
    as render filepath, at the time of the other call.  So the bytes are
    the same exactly as far as the host makes the same image file of a
    scene whatever the render filepath and the time are.  When the calls
    raise, nothing is written to either. *)
Theorem stream_same_bytes_as_path `{env : Env} p h v t kw w c :
  (forall b, save_path b p = Ok p) ->
  (forall b, save_path b (path_used (OutStream h) w) =
             Ok (path_used (OutStream h) w)) ->
  fst (render_tri (OutStream h) v t kw w) =
  fst (render_tri (OutPath p) v t kw (at_time c w)) /\
  match fst (render_tri (OutPath p) v t kw (at_time c w)) with
  | Ok _ =>
      fs (snd (render_tri (OutPath p) v t kw (at_time c w))) p =
      Some (render_image
              (host (snd (render_tri (OutPath p) v t kw (at_time c w)))) c) /\
      streams (snd (render_tri (OutStream h) v t kw w)) h =
      stream_write
        (render_image
           (with_filepath (path_used (OutStream h) w)
              (host (snd (render_tri (OutPath p) v t kw (at_time c w)))))
           (clock w))
        (streams w h) /\
      (render_image
         (with_filepath (path_used (OutStream h) w)
            (host (snd (render_tri (OutPath p) v t kw (at_time c w)))))
         (clock w) =
       render_image
         (host (snd (render_tri (OutPath p) v t kw (at_time c w)))) c ->
       exists image,
         fs (snd (render_tri (OutPath p) v t kw (at_time c w))) p = Some image /\
         streams (snd (render_tri (OutStream h) v t kw w)) h =
         stream_write image (streams w h))
  | Raise _ =>
      fs (snd (render_tri (OutPath p) v t kw (at_time c w))) p = fs w p /\
      streams (snd (render_tri (OutStream h) v t kw w)) h = streams w h
  end.
Proof.
  intros Hp Htmp. unfold path_used in *.
  rewrite render_tri_path_at_time, render_tri_stream.
  cbv zeta.
  rewrite (prepare_same_but_path
             (String.append (mkdtemp (fs w)) "/out.png") p v t kw w).
  pose proof (prepare_render_settings p v t kw w) as Hs.
  pose proof (host_only_frame _ w (host_only_prepare p v t kw)) as Hfr.
  destruct (render_tri_prepare p v t kw w) as [[[]|e] w']; simpl in Hfr.
  - destruct (Hs tt w' eq_refl) as [_ [Hr _]].
    unfold refile, ops_render_render, at_time. run_fields.
    rewrite Hr, Hp, Htmp. run_fields. rewrite !write_file_same. run_fields.
    rewrite Nat.eqb_refl. rewrite Hfr. run_fields.
    split; [reflexivity|]. split; [reflexivity|]. split; [reflexivity|].
    intros E. eexists. split; [reflexivity|]. rewrite E. reflexivity.
  - unfold refile, at_time. run_fields. rewrite Hfr. auto.
Qed.

Lemma stream_same_bytes_as_path_witness :
  exists image,
    fs (snd (render_tri (env := Example.still_env) (OutPath "tri.png")
               Example.vertices Example.triangles Kw.default
               (at_time 5 Example.w0)))
       "tri.png" = Some image /\
    streams (snd (render_tri (env := Example.still_env) (OutStream 7)
                    Example.vertices Example.triangles Kw.default
                    Example.w0)) 7%nat =
    stream_write image (streams Example.w0 7%nat).
Proof.
  pose proof (@stream_same_bytes_as_path Example.still_env "tri.png" 7
                Example.vertices Example.triangles Kw.default Example.w0 5
                (fun b => eq_refl) (fun b => eq_refl)) as [_ H].
  assert (Hok : fst (render_tri (env := Example.still_env) (OutPath "tri.png")
                       Example.vertices Example.triangles Kw.default
                       (at_time 5 Example.w0)) = Ok tt)
    by (lazy; reflexivity).
  rewrite Hok in H. destruct H as [_ [_ H]].
  apply H. reflexivity.
Defined.

(** The example calls do return.  With a renderer that puts no time into
    the image the two outputs hold the same seven bytes. *)
Example stream_and_path_example :
  fst (render_tri (env := Example.still_env) (OutPath "tri.png")
         Example.vertices Example.triangles
         (Kw.mk None (0.7, 0.0, 0.8)%R 5%R 35%R 5%R 300%R "CYCLES" 4 4)
         (at_time 5 Example.w0)) = Ok tt /\
  fs (snd (render_tri (env := Example.still_env) (OutPath "tri.png")
             Example.vertices Example.triangles
             (Kw.mk None (0.7, 0.0, 0.8)%R 5%R 35%R 5%R 300%R "CYCLES" 4 4)
             (at_time 5 Example.w0))) "tri.png" =
  Some [Byte.x2a; Byte.x2a; Byte.x2a; Byte.x2a; Byte.x23; Byte.x23; Byte.x23] /\
  content (streams (snd (render_tri (env := Example.still_env) (OutStream 7)
                  Example.vertices Example.triangles
                  (Kw.mk None (0.7, 0.0, 0.8)%R 5%R 35%R 5%R 300%R "CYCLES" 4 4)
                  Example.w0)) 7%nat) =
  [Byte.x2a; Byte.x2a; Byte.x2a; Byte.x2a; Byte.x23; Byte.x23; Byte.x23].
Proof.
  split; [|split]; lazy; reflexivity.
Qed.

(** C1 on the example host, whose renderer stamps the time into the
    image and which saves PNG files under names that end in [.png].  The
    call with a stream and the call with the path [tri.png], made one
    tick later, both return, and the stream holds other bytes than the
    file.  The call with the path [tri] returns and leaves no file at
    [tri]: the image is in [tri.png].  The call with a path the host
    cannot save to, under [/dev/null], raises, where the call with a
    stream returns. *)
Lemma stream_bytes_differ_from_file :
  fst (render_tri (env := Example.env) (OutStream 7)
         Example.vertices Example.triangles
         (Kw.mk None (0.7, 0.0, 0.8)%R 5%R 35%R 5%R 300%R "CYCLES" 4 4)
         Example.w0) = Ok tt /\
  content (streams (snd (render_tri (env := Example.env) (OutStream 7)
                  Example.vertices Example.triangles
                  (Kw.mk None (0.7, 0.0, 0.8)%R 5%R 35%R 5%R 300%R "CYCLES" 4 4)
                  Example.w0)) 7%nat) =
  [Byte.x2a; Byte.x2a; Byte.x2a; Byte.x2a; Byte.x23; Byte.x23; Byte.x23] /\
  fst (render_tri (env := Example.env) (OutPath "tri.png")
         Example.vertices Example.triangles
         (Kw.mk None (0.7, 0.0, 0.8)%R 5%R 35%R 5%R 300%R "CYCLES" 4 4)
         (at_time 1 Example.w0)) = Ok tt /\
  fs (snd (render_tri (env := Example.env) (OutPath "tri.png")
             Example.vertices Example.triangles
             (Kw.mk None (0.7, 0.0, 0.8)%R 5%R 35%R 5%R 300%R "CYCLES" 4 4)
             (at_time 1 Example.w0))) "tri.png" =
  Some [Byte.x2a; Byte.x2a; Byte.x2a; Byte.x2a; Byte.x23; Byte.x23; Byte.x23;
        Byte.x74] /\
  fst (render_tri (env := Example.env) (OutPath "tri")
         Example.vertices Example.triangles
         (Kw.mk None (0.7, 0.0, 0.8)%R 5%R 35%R 5%R 300%R "CYCLES" 4 4)
         Example.w0) = Ok tt /\
  fs (snd (render_tri (env := Example.env) (OutPath "tri")
             Example.vertices Example.triangles
             (Kw.mk None (0.7, 0.0, 0.8)%R 5%R 35%R 5%R 300%R "CYCLES" 4 4)
             Example.w0)) "tri" = None /\
  fst (render_tri (env := Example.env) (OutPath "/dev/null/tri.png")
         Example.vertices Example.triangles
         (Kw.mk None (0.7, 0.0, 0.8)%R 5%R 35%R 5%R 300%R "CYCLES" 4 4)
         Example.w0) = Raise RuntimeError.
Proof.
  repeat split; lazy; reflexivity.
Qed.

(** ** The decorated function in terms of the undecorated one *)

Lemma render_tri_outcome `{env : Env} output v t kw w :
  (fst (render_tri output v t kw w) = Ok tt ->
   fst (render_tri_prepare (path_used output w) v t kw w) = Ok tt) /\
  (forall e, fst (render_tri_prepare (path_used output w) v t kw w) = Raise e ->
             fst (render_tri output v t kw w) = Raise e) /\
  host (snd (render_tri output v t kw w)) =
  host (snd (render_tri_prepare (path_used output w) v t kw w)).
Proof.
  destruct output as [p|h]; unfold path_used.
  - rewrite render_tri_path, render_tri_impl_run.
    destruct (render_tri_prepare p v t kw w) as [[[]|e] w'];
      [|split; [intros H; discriminate H | split; [intros e' H; exact H | reflexivity]]].
    unfold ops_render_render.
    destruct (save_path _ _); split; try reflexivity;
      split; try reflexivity; intros e' H; discriminate H.
  - rewrite render_tri_stream. cbv zeta.
    destruct (render_tri_prepare _ v t kw w) as [[[]|e] w'];
      [|split; [intros H; discriminate H | split; [intros e' H; exact H | reflexivity]]].
    destruct (save_path _ _);
      [|split; [reflexivity | split; [intros e' H; discriminate H | reflexivity]]].
    destruct (write_file _ _ _ _); split; try reflexivity;
      split; try reflexivity; intros e' H; discriminate H.
Qed.

(** ** C7, C10, C2: the render settings at the render invocation *)

(** C7, as the code has it. When [render_tri] gets as far as the render
    operator, the scene's render filepath is the output path it was
    called with, and the render resolution is what the host makes of the
    caller's [resolution_x] and [resolution_y]: both are 32-bit integers
    (the host refuses others, so the call does not get this far with
    them), brought into the range 4 to 65536, and so the caller's values
    when these are in that range.  Called through the decorator with a
    path, the image of that scene is saved to the file the host makes of
    the path, or the call raises what the host raises when it cannot save
    there. *)
Theorem render_invoked_with_output_and_resolution `{env : Env} p v t kw w :
  fst (render_tri_prepare p v t kw w) = Ok tt ->
  filepath (render (scene (host (snd (render_tri_prepare p v t kw w))))) = p /\
  in_int32 (Kw.resolution_x kw) = true /\
  in_int32 (Kw.resolution_y kw) = true /\
  resolution_x (render (scene (host (snd (render_tri_prepare p v t kw w))))) =
  Z.max 4 (Z.min 65536 (Kw.resolution_x kw)) /\
  resolution_y (render (scene (host (snd (render_tri_prepare p v t kw w))))) =
  Z.max 4 (Z.min 65536 (Kw.resolution_y kw)) /\
  ((4 <= Kw.resolution_x kw <= 65536)%Z ->
   resolution_x (render (scene (host (snd (render_tri_prepare p v t kw w))))) =
   Kw.resolution_x kw) /\
  ((4 <= Kw.resolution_y kw <= 65536)%Z ->
   resolution_y (render (scene (host (snd (render_tri_prepare p v t kw w))))) =
   Kw.resolution_y kw) /\
  match save_path (host (snd (render_tri_prepare p v t kw w))) p with
  | Ok q =>
      fst (render_tri (OutPath p) v t kw w) = Ok tt /\
      fs (snd (render_tri (OutPath p) v t kw w)) q =
      Some (render_image (host (snd (render_tri_prepare p v t kw w))) (clock w))
  | Raise e =>
      fst (render_tri (OutPath p) v t kw w) = Raise e /\
      fs (snd (render_tri (OutPath p) v t kw w)) = fs w
  end.
Proof.
  intros Hok. rewrite render_tri_path, render_tri_impl_run.
  pose proof (prepare_render_settings p v t kw w) as Hs.
  pose proof (host_only_frame _ w (host_only_prepare p v t kw)) as Hfr.
  destruct (render_tri_prepare p v t kw w) as [[[]|e] w']; [|discriminate].
  destruct (Hs tt w' eq_refl) as [_ [Hr [Hx Hy]]]. run_fields.
  unfold ops_render_render. simpl in Hfr.
  rewrite Hr. run_fields.
  split; [reflexivity|]. split; [exact Hx|]. split; [exact Hy|].
  split; [reflexivity|]. split; [reflexivity|].
  split; [intros H; lia|]. split; [intros H; lia|].
  destruct (save_path (host w') p) as [q|e]; run_fields.
  - rewrite write_file_same.
    replace (clock w') with (clock w) by (rewrite Hfr; reflexivity). auto.
  - rewrite Hfr. auto.
Qed.

(** C10. Whatever the arguments and whatever the host's state, when
    [render_tri] gets as far as the render operator, denoising is off on
    the view layer. *)
Theorem denoising_off_at_render `{env : Env} output v t kw w :
  fst (render_tri_prepare (path_used output w) v t kw w) = Ok tt ->
  use_denoising
    (host (snd (render_tri_prepare (path_used output w) v t kw w))) = false.
Proof.
  intros Hok.
  pose proof (prepare_render_settings (path_used output w) v t kw w) as Hs.
  destruct (render_tri_prepare _ v t kw w) as [[[]|e] w']; [|discriminate].
  destruct (Hs tt w' eq_refl) as [Hd _]. exact Hd.
Qed.

(** The engine set before rendering is CYCLES, whatever [renderer] is. *)
Lemma engine_at_render `{env : Env} p v t kw w :
  fst (render_tri_prepare p v t kw w) = Ok tt ->
  engine (render (scene (host (snd (render_tri_prepare p v t kw w))))) = "CYCLES".
Proof.
  intros Hok.
  pose proof (prepare_render_settings p v t kw w) as Hs.
  destruct (render_tri_prepare _ v t kw w) as [[[]|e] w']; [|discriminate].
  destruct (Hs tt w' eq_refl) as [_ [Hr _]]. run_fields. rewrite Hr. reflexivity.
Qed.

(** C2, at [renderer = 'BLENDER_EEVEE']: the call reaches the render
    operator with the engine set to CYCLES, not to the caller's value. *)
Theorem renderer_argument_ignored :
  Kw.renderer
    (Kw.mk None (0.7, 0.0, 0.8)%R 5%R 35%R 5%R 300%R "BLENDER_EEVEE" 800 600) =
  "BLENDER_EEVEE" /\
  fst (render_tri_prepare (env := Example.env) "tri.png"
         Example.vertices Example.triangles
         (Kw.mk None (0.7, 0.0, 0.8)%R 5%R 35%R 5%R 300%R "BLENDER_EEVEE" 800 600)
         Example.w0) = Ok tt /\
  engine (render (scene (host (snd
    (render_tri_prepare (env := Example.env) "tri.png"
       Example.vertices Example.triangles
       (Kw.mk None (0.7, 0.0, 0.8)%R 5%R 35%R 5%R 300%R "BLENDER_EEVEE" 800 600)
       Example.w0))))) = "CYCLES".
Proof.
  split; [reflexivity|]. split; lazy; reflexivity.
Qed.

Lemma render_invoked_with_output_and_resolution_witness :
  filepath (render (scene (host (snd
    (render_tri_prepare (env := Example.env) "tri.png"
       Example.vertices Example.triangles Kw.default Example.w0))))) = "tri.png" /\
  resolution_x (render (scene (host (snd
    (render_tri_prepare (env := Example.env) "tri.png"
       Example.vertices Example.triangles Kw.default Example.w0))))) = 800%Z.
Proof.
  assert (H : fst (render_tri_prepare (env := Example.env) "tri.png"
                     Example.vertices Example.triangles Kw.default Example.w0)
              = Ok tt) by (lazy; reflexivity).
  pose proof (@render_invoked_with_output_and_resolution Example.env
                "tri.png" Example.vertices Example.triangles Kw.default
                Example.w0 H) as [Hp [_ [_ [_ [_ [Hx _]]]]]].
  split; [exact Hp|]. apply Hx. simpl. lia.
Defined.

(** C7 at [resolution_x = 2]: the call gets to the render operator with
    a resolution of 4 by 600. *)
Lemma resolution_two_becomes_four :
  Kw.resolution_x
    (Kw.mk None (0.7, 0.0, 0.8)%R 5%R 35%R 5%R 300%R "CYCLES" 2 600) = 2%Z /\
  fst (render_tri_prepare (env := Example.env) "tri.png"
         Example.vertices Example.triangles
         (Kw.mk None (0.7, 0.0, 0.8)%R 5%R 35%R 5%R 300%R "CYCLES" 2 600)
         Example.w0) = Ok tt /\
  resolution_x (render (scene (host (snd
    (render_tri_prepare (env := Example.env) "tri.png"
       Example.vertices Example.triangles
       (Kw.mk None (0.7, 0.0, 0.8)%R 5%R 35%R 5%R 300%R "CYCLES" 2 600)
       Example.w0))))) = 4%Z.
Proof.
  split; [reflexivity|]. split; lazy; reflexivity.
Qed.

Lemma denoising_off_at_render_witness :
  use_denoising (host Example.w0) = true /\
  use_denoising
    (host (snd (render_tri_prepare (env := Example.env)
                  (path_used (env := Example.env) (OutStream 7) Example.w0)
                  Example.vertices Example.triangles Kw.default Example.w0)))
  = false.
Proof.
  split; [reflexivity|].
  apply (@denoising_off_at_render Example.env (OutStream 7)).
  lazy. reflexivity.
Defined.

(** ** C5: what the clearing step leaves behind *)

(** The clearing step empties the list of child collections and keeps
    every object linked to the root collection. *)
Lemma clear_scene_keeps_objects (w : world) :
  children (scene (host (snd (clear_scene w)))) = [] /\
  scene_objects (scene (host (snd (clear_scene w)))) =
  scene_objects (scene (host w)) /\
  objects (host (snd (clear_scene w))) = objects (host w).
Proof.
  rewrite clear_scene_run. unfold without_children. run. auto.
Qed.

(** C5, on two calls in a row from the start-up scene: after the clearing
    step of the second call the mesh, the camera and the light of the
    first call are still linked to the scene's root collection. *)
Theorem second_call_keeps_first_objects :
  scene_objects (scene (host Example.w0)) = [] /\
  fst (render_tri (env := Example.env) (OutPath "one.png")
         Example.vertices Example.triangles Kw.default Example.w0) = Ok tt /\
  scene_objects (scene (host (snd (clear_scene
    (snd (render_tri (env := Example.env) (OutPath "one.png")
            Example.vertices Example.triangles Kw.default Example.w0))))))
  = [0; 1; 2]%nat /\
  map obj_data (objects (host (snd (clear_scene
    (snd (render_tri (env := Example.env) (OutPath "one.png")
            Example.vertices Example.triangles Kw.default Example.w0))))))
  = [MeshData 0; CameraData 0; LightData 0].
Proof.
  split; [reflexivity|]. split; [lazy; reflexivity|].
  split; lazy; reflexivity.
Qed.

(** ** C8: the truth test on [colors] *)

(** C8, as the code has it. With vertices and triangles that pass
    [mesh_from_tri]: an array of more than one element as [colors] makes
    [render_tri] raise [ValueError] with the new mesh left without color
    attribute and material and no material created.  For an array of no
    element numpy decides: where it refuses the truth value, [render_tri]
    raises what numpy raises, with the mesh left as before; where it
    answers false the array is taken as no colors, as [None] and the
    empty sequence are.  Taken as no colors, and with a resolution the
    host takes, the call gets to the render operator with the new mesh
    left without color attribute and material. *)
Theorem colors_truth_test `{env : Env} output v t va ta kw w :
  asarray v = Ok va -> asarray_int t = Ok ta ->
  conforming va 3 -> conforming ta 3 ->
  indices_fit (rows ta) = true ->
  (forall a e,
     Kw.colors kw = Some (Arr a) ->
     ((1 < size a)%nat /\ e = ValueError) \/
     (size a = 0%nat /\ empty_array_truth = Raise e) ->
     fst (render_tri output v t kw w) = Raise e /\
     (exists m,
        meshes (host (snd (render_tri output v t kw w))) = meshes (host w) ++ [m] /\
        color_attributes m = [] /\ mesh_materials m = []) /\
     materials (host (snd (render_tri output v t kw w))) = materials (host w)) /\
  (Kw.colors kw = None \/ Kw.colors kw = Some (Seq []) \/
   (exists a, Kw.colors kw = Some (Arr a) /\ size a = 0%nat /\
              empty_array_truth = Ok false) ->
   in_int32 (Kw.resolution_x kw) = true ->
   in_int32 (Kw.resolution_y kw) = true ->
     fst (render_tri_prepare (path_used output w) v t kw w) = Ok tt /\
     (exists m,
        meshes (host (snd (render_tri output v t kw w))) = meshes (host w) ++ [m] /\
        color_attributes m = [] /\ mesh_materials m = []) /\
     materials (host (snd (render_tri output v t kw w))) = materials (host w)).
Proof.
  intros Hv Ht Hcv Hct Hi.
  assert (Hc : conformingb va 3 && conformingb ta 3 = true).
  { apply andb_true_iff. split; apply conformingb_spec; assumption. }
  destruct (render_tri_outcome output v t kw w) as [_ [Hr Hh]].
  rewrite Hh. split.
  - intros a e Ha Hsize.
    destruct (prepare_array_colors (path_used output w) v t va ta kw w a e
                Hv Ht Hc Hi Ha Hsize) as [w' [E [Hm [Hmat _]]]].
    rewrite (Hr e) by (rewrite E; reflexivity).
    rewrite E. simpl. split; [reflexivity|]. split; [|exact Hmat].
    eexists. split; [exact Hm|]. split; reflexivity.
  - intros Hk Hx Hy.
    destruct (prepare_no_colors (path_used output w) v t va ta kw w
                Hv Ht Hc Hi Hx Hy)
      as [w' [E [Hm [Hmat _]]]].
    { destruct Hk as [Hk|[Hk|[a [Hk [Hs He]]]]]; [left; exact Hk| |].
      - right. exists (Seq []). split; [exact Hk | reflexivity].
      - right. exists (Arr a). split; [exact Hk|].
        unfold truth. rewrite Hs. exact He. }
    rewrite E. simpl. split; [reflexivity|]. split; [|exact Hmat].
    eexists. split; [exact Hm|]. split; reflexivity.
Qed.

Lemma colors_truth_test_witness :
  fst (render_tri (env := Example.env) (OutStream 7)
         Example.vertices Example.triangles
         (Kw.mk (Some (Arr Example.color_array))
                (0.7, 0.0, 0.8)%R 5%R 35%R 5%R 300%R "CYCLES" 800 600)
         Example.w0) = Raise ValueError /\
  fst (render_tri_prepare (env := Example.env)
         (path_used (env := Example.env) (OutStream 7) Example.w0)
         Example.vertices Example.triangles
         (Kw.mk (Some (Seq []))
                (0.7, 0.0, 0.8)%R 5%R 35%R 5%R 300%R "CYCLES" 800 600)
         Example.w0) = Ok tt.
Proof.
  split.
  - refine (proj1 (proj1 (@colors_truth_test Example.env (OutStream 7)
                            Example.vertices Example.triangles _ _
                            (Kw.mk (Some (Arr Example.color_array))
                               (0.7, 0.0, 0.8)%R 5%R 35%R 5%R 300%R
                               "CYCLES" 800 600)
                            Example.w0 eq_refl eq_refl _ _ eq_refl)
                         Example.color_array ValueError eq_refl _)).
    + split; reflexivity.
    + split; reflexivity.
    + left. split; [lazy; lia | reflexivity].
  - refine (proj1 (proj2 (@colors_truth_test Example.env (OutStream 7)
                            Example.vertices Example.triangles _ _
                            (Kw.mk (Some (Seq []))
                               (0.7, 0.0, 0.8)%R 5%R 35%R 5%R 300%R
                               "CYCLES" 800 600)
                            Example.w0 eq_refl eq_refl _ _ eq_refl)
                         (or_intror (or_introl eq_refl)) eq_refl eq_refl)).
    + split; reflexivity.
    + split; reflexivity.
Defined.

(** C8 at an empty array of colors, with NumPy 2.2 or later: the truth
    test raises [ValueError]; the array is not taken as no colors. *)
Lemma empty_array_not_silently_no_colors :
  size (mk_ndarray [0%nat; 4%nat] (@nil R)) = 0%nat /\
  fst (render_tri (env := Example.env) (OutPath "tri.png")
         Example.vertices Example.triangles
         (Kw.mk (Some (Arr (mk_ndarray [0%nat; 4%nat] [])))
                (0.7, 0.0, 0.8)%R 5%R 35%R 5%R 300%R "CYCLES" 800 600)
         Example.w0) = Raise ValueError /\
  fs (snd (render_tri (env := Example.env) (OutPath "tri.png")
         Example.vertices Example.triangles
         (Kw.mk (Some (Arr (mk_ndarray [0%nat; 4%nat] [])))
                (0.7, 0.0, 0.8)%R 5%R 35%R 5%R 300%R "CYCLES" 800 600)
         Example.w0)) "tri.png" = None.
Proof.
  split; [reflexivity|]. split; lazy; reflexivity.
Qed.

(** ** Single precision *)

Section SinglePrecision.

Local Open Scope R_scope.

Lemma floor_spec (x : R) (z : Z) : IZR z <= x < IZR z + 1 -> floor x = z.
Proof.
  intros [H1 H2]. symmetry. apply Int_part_spec. lra.
Qed.

Lemma ln_2_pos : 0 < ln 2.
Proof. rewrite <- ln_1. apply ln_increasing; lra. Qed.

Lemma ln_powerRZ_2 (z : Z) : ln (powerRZ 2 z) = IZR z * ln 2.
Proof.
  rewrite powerRZ_Rpower by lra.
  unfold Rpower. apply ln_exp.
Qed.

Lemma binade_spec (x : R) (e : Z) :
  powerRZ 2 e <= Rabs x < powerRZ 2 (e + 1) -> binade x = e.
Proof.
  intros [H1 H2]. unfold binade. apply floor_spec.
  assert (Hp : 0 < powerRZ 2 e) by (apply powerRZ_lt; lra).
  assert (Hx : 0 < Rabs x) by lra.
  pose proof ln_2_pos as H2pos.
  assert (L1 : IZR e * ln 2 <= ln (Rabs x)).
  { rewrite <- ln_powerRZ_2.
    destruct H1 as [H1|H1]; [left; apply ln_increasing; assumption
                            | right; now rewrite H1]. }
  assert (L2 : ln (Rabs x) < IZR (e + 1) * ln 2).
  { rewrite <- ln_powerRZ_2. apply ln_increasing; assumption. }
  rewrite plus_IZR in L2.
  split.
  - apply (Rmult_le_reg_r (ln 2)); [exact H2pos|].
    unfold Rdiv. rewrite Rmult_assoc, Rinv_l by lra. lra.
  - apply (Rmult_lt_reg_r (ln 2)); [exact H2pos|].
    unfold Rdiv. rewrite Rmult_assoc, Rinv_l by lra. lra.
Qed.

Lemma nearest_even_up (y : R) (n : Z) :
  IZR n + 1 / 2 < y < IZR n + 1 -> nearest_even y = (n + 1)%Z.
Proof.
  intros [H1 H2]. unfold nearest_even.
  rewrite (floor_spec y n) by lra.
  destruct (Rlt_dec (y - IZR n) (1 / 2)); [lra|].
  destruct (Rlt_dec (1 / 2) (y - IZR n)); [reflexivity | lra].
Qed.

Lemma nearest_even_IZR (n : Z) : nearest_even (IZR n) = n.
Proof.
  unfold nearest_even. rewrite (floor_spec (IZR n) n) by lra.
  destruct (Rlt_dec (IZR n - IZR n) (1 / 2)); [reflexivity | lra].
Qed.

Lemma binary32_0 : binary32 0 = 0.
Proof.
  unfold binary32. destruct (Req_dec_T 0 0); [reflexivity | contradiction].
Qed.

Lemma binary32_1 : binary32 1 = 1.
Proof.
  unfold binary32. destruct (Req_dec_T 1 0); [lra|].
  rewrite (binade_spec 1 0) by (rewrite Rabs_R1; simpl; lra).
  change (Z.max 0 (-126) - 23)%Z with (-23)%Z.
  replace (1 / powerRZ 2 (-23)) with (IZR 8388608) by (simpl; lra).
  rewrite nearest_even_IZR. simpl. lra.
Qed.


Lemma binary32_tenth : binary32 tenth = 13421773 / 134217728.
Proof.
  unfold binary32, tenth.
  destruct (Req_dec_T _ 0); [lra|].
  rewrite (binade_spec _ (-4)).
  2:{ rewrite Rabs_right by lra. simpl. lra. }
  change (Z.max (-4) (-126) - 23)%Z with (-27)%Z.
  rewrite (nearest_even_up _ 13421772).
  2:{ simpl. lra. }
  simpl. lra.
Qed.

Lemma binary32_tenth_differs : binary32 tenth <> tenth.
Proof. rewrite binary32_tenth. unfold tenth. lra. Qed.

(** The defaults of [render_tri] that are held as they are. *)
Lemma binary32_35 : binary32 35 = 35.
Proof.
  unfold binary32. destruct (Req_dec_T 35 0); [lra|].
  rewrite (binade_spec 35 5) by (rewrite Rabs_right by lra; simpl; lra).
  change (Z.max 5 (-126) - 23)%Z with (-18)%Z.
  replace (35 / powerRZ 2 (-18)) with (IZR 9175040) by (simpl; lra).
  rewrite nearest_even_IZR. simpl. lra.
Qed.

Lemma binary32_5 : binary32 5.0 = 5.
Proof.
  unfold binary32. destruct (Req_dec_T 5.0 0); [lra|].
  rewrite (binade_spec 5.0 2) by (rewrite Rabs_right by lra; simpl; lra).
  change (Z.max 2 (-126) - 23)%Z with (-21)%Z.
  replace (5.0 / powerRZ 2 (-21)) with (IZR 10485760) by (simpl; lra).
  rewrite nearest_even_IZR. simpl. lra.
Qed.

Lemma binary32_300 : binary32 300 = 300.
Proof.
  unfold binary32. destruct (Req_dec_T 300 0); [lra|].
  rewrite (binade_spec 300 8) by (rewrite Rabs_right by lra; simpl; lra).
  change (Z.max 8 (-126) - 23)%Z with (-15)%Z.
  replace (300 / powerRZ 2 (-15)) with (IZR 9830400) by (simpl; lra).
  rewrite nearest_even_IZR. simpl. lra.
Qed.

End SinglePrecision.


(** ** C9: where the camera is put *)







(** ** Instances of the shape theorems *)

Lemma example_mesh_of : mesh_of Example.w1 0 0 Example.triangle_mesh.
Proof.
  eexists. split; [reflexivity|]. split; reflexivity.
Qed.

Lemma mesh_from_tri_assertion_witness :
  fst (mesh_from_tri (env := Example.env) "mesh" Example.vertices
         (Seq [Num 0; Num 1; Num 2]%Z) Example.w0) = Raise AssertionError /\
  is_ok (fst (mesh_from_tri (env := Example.env) "mesh" Example.vertices
                Example.triangles Example.w0)) = true.
Proof.
  split.
  - refine (proj2 (proj1 (@mesh_from_tri_assertion Example.env "mesh"
                            Example.vertices (Seq [Num 0; Num 1; Num 2]%Z)
                            _ _ Example.w0 eq_refl eq_refl)) _).
    intros [_ [H _]]. discriminate H.
  - destruct (proj1 (proj2 (@mesh_from_tri_assertion Example.env "mesh"
                              Example.vertices Example.triangles
                              _ _ Example.w0 eq_refl eq_refl)))
      as [obj [mesh [o [m [H _]]]]].
    + split; split; reflexivity.
    + reflexivity.
    + rewrite H. reflexivity.
Defined.

(** C3 at the triangle (0, 1, 2^31): the arrays conform, and the call
    raises [TypeError] with a mesh left among the host's meshes. *)
Lemma mesh_from_tri_index_too_large :
  asarray_int (Seq [Seq [Num 0; Num 1; Num 2147483648]]%Z) =
  Ok (mk_ndarray [1%nat; 3%nat] [0; 1; 2147483648]%Z) /\
  conforming (mk_ndarray [1%nat; 3%nat] [0; 1; 2147483648]%Z) 3 /\
  meshes (host Example.w0) = [] /\
  fst (mesh_from_tri (env := Example.env) "mesh" Example.vertices
         (Seq [Seq [Num 0; Num 1; Num 2147483648]]%Z) Example.w0) =
  Raise TypeError /\
  map mesh_name
    (meshes (host (snd (mesh_from_tri (env := Example.env) "mesh"
                          Example.vertices
                          (Seq [Seq [Num 0; Num 1; Num 2147483648]]%Z)
                          Example.w0)))) = ["mesh"] /\
  objects (host (snd (mesh_from_tri (env := Example.env) "mesh"
                        Example.vertices
                        (Seq [Seq [Num 0; Num 1; Num 2147483648]]%Z)
                        Example.w0))) = [].
Proof.
  split; [reflexivity|]. split; [split; reflexivity|].
  split; [reflexivity|]. split; [reflexivity|]. split; reflexivity.
Qed.

Lemma add_vertex_colors_copies_witness :
  exists attr a,
    fst (add_vertex_colors (env := Example.env) 0 "Col"
           Example.three_colors Example.w1) = Ok attr /\
    attr_at (snd (add_vertex_colors (env := Example.env) 0 "Col"
                    Example.three_colors Example.w1)) 0 (snd attr) a /\
    nth_error (attr_data a) 2 =
    Some (map binary32 (row Example.color_array 4 2)).
Proof.
  destruct (@add_vertex_colors_copies Example.env 0 "Col" Example.three_colors
              Example.color_array Example.w1 0 Example.triangle_mesh 3
              eq_refl eq_refl example_mesh_of)
    as [attr [a [H1 [H2 [H3 [_ [_ [_ H7]]]]]]]].
  - simpl. lia.
  - exists attr, a. split; [exact H1|]. split.
    + rewrite <- H2 at 2. exact H3.
    + apply H7. lia.
Defined.

(** C6 at the color (0.1, 0.1, 0.1, 1) for each of the three vertices:
    the entries of the attribute hold the single-precision number nearest
    to 0.1, which is not the 0.1 of the array. *)
Lemma add_vertex_colors_rounds :
  exists a,
    asarray (Seq [Seq [Num tenth; Num tenth; Num tenth; Num 1%R];
                  Seq [Num tenth; Num tenth; Num tenth; Num 1%R];
                  Seq [Num tenth; Num tenth; Num tenth; Num 1%R]]) =
    Ok (mk_ndarray [3%nat; 4%nat]
          [tenth; tenth; tenth; 1%R; tenth; tenth; tenth; 1%R;
           tenth; tenth; tenth; 1%R]) /\
    length (mesh_vertices Example.triangle_mesh) = 3%nat /\
    fst (add_vertex_colors (env := Example.env) 0 "Col"
           (Seq [Seq [Num tenth; Num tenth; Num tenth; Num 1%R];
                 Seq [Num tenth; Num tenth; Num tenth; Num 1%R];
                 Seq [Num tenth; Num tenth; Num tenth; Num 1%R]])
           Example.w1) = Ok (0%nat, 0%nat) /\
    attr_at (snd (add_vertex_colors (env := Example.env) 0 "Col"
                    (Seq [Seq [Num tenth; Num tenth; Num tenth; Num 1%R];
                          Seq [Num tenth; Num tenth; Num tenth; Num 1%R];
                          Seq [Num tenth; Num tenth; Num tenth; Num 1%R]])
                    Example.w1)) 0 0 a /\
    nth_error (attr_data a) 0 =
    Some [13421773 / 134217728; 13421773 / 134217728;
          13421773 / 134217728; 1]%R /\
    nth_error (attr_data a) 0 <>
    Some (row (mk_ndarray [3%nat; 4%nat]
                 [tenth; tenth; tenth; 1%R; tenth; tenth; tenth; 1%R;
                  tenth; tenth; tenth; 1%R]) 4 0).
Proof.
  exists (mk_Attribute "Col" "FLOAT_COLOR" "POINT"
            [[binary32 tenth; binary32 tenth; binary32 tenth; binary32 1];
             [binary32 tenth; binary32 tenth; binary32 tenth; binary32 1];
             [binary32 tenth; binary32 tenth; binary32 tenth; binary32 1]]%R).
  split; [reflexivity|]. split; [reflexivity|]. split; [reflexivity|]. split.
  - eexists. split; reflexivity.
  - simpl. rewrite binary32_tenth, binary32_1. split; [reflexivity|].
    intros H. injection H as H. unfold tenth in H. lra.
Qed.

Lemma add_vertex_colors_shape_check_witness :
  is_ok (fst (add_vertex_colors (env := Example.env) 0 "Col"
                Example.three_colors Example.w1)) = true /\
  fst (add_vertex_colors (env := Example.env) 0 "Col"
         (Seq [Example.red; Example.red; Example.red; Example.red])
         Example.w1) = Raise IndexError /\
  fst (add_vertex_colors (env := Example.env) 0 "Col"
         Example.red Example.w1) = Raise AssertionError.
Proof.
  split; [|split].
  - refine (proj1 (proj2 (@add_vertex_colors_shape_check Example.env 0 "Col"
                            Example.three_colors _ Example.w1 0
                            Example.triangle_mesh eq_refl example_mesh_of))
                  3%nat eq_refl _).
    simpl. lia.
  - refine (proj2 (proj2 (@add_vertex_colors_shape_check Example.env 0 "Col"
                            (Seq [Example.red; Example.red; Example.red;
                                  Example.red]) _ Example.w1 0
                            Example.triangle_mesh eq_refl example_mesh_of))
                  4%nat eq_refl _).
    simpl. lia.
  - refine (proj2 (proj1 (@add_vertex_colors_shape_check Example.env 0 "Col"
                            Example.red _ Example.w1 0
                            Example.triangle_mesh eq_refl example_mesh_of)) _).
    intros [H _]. discriminate H.
Defined.

(** C4 at a mesh of three vertices and colors for two of them: the
    assertion lets the array of two rows through and the call returns the
    new attribute. *)
Lemma add_vertex_colors_row_count_unchecked :
  mesh_of Example.w1 0 0 Example.triangle_mesh /\
  length (mesh_vertices Example.triangle_mesh) = 3%nat /\
  asarray Example.two_colors =
  Ok (mk_ndarray [2%nat; 4%nat] [1; 0; 0; 1; 1; 0; 0; 1]%R) /\
  fst (add_vertex_colors (env := Example.env) 0 "Col"
         Example.two_colors Example.w1) = Ok (0%nat, 0%nat) /\
  fst (add_vertex_colors (env := Example.env) 0 "Col"
         Example.two_colors Example.w1) <> Raise AssertionError.
Proof.
  split; [exact example_mesh_of|]. split; [reflexivity|].
  split; [reflexivity|]. split; [reflexivity | discriminate].
Qed.

(** * Further properties *)

(** ** Strings *)

Lemma prefix_append (s t : string) : String.prefix s (String.append s t) = true.
Proof.
  induction s as [|a s IH]; simpl.
  - destruct t; reflexivity.
  - destruct (Ascii.ascii_dec a a) as [_|N]; [exact IH | contradiction].
Qed.

Lemma append_assoc_string (a b c : string) :
  String.append (String.append a b) c = String.append a (String.append b c).
Proof.
  induction a as [|x a IH]; simpl; [reflexivity | now rewrite IH].
Qed.

(** ** Validation comes before the host is touched *)

(** How [mesh_from_tri] raises: before it has touched the host, or with
    the host's [TypeError] for the triangles and the mesh left behind. *)
Lemma mesh_from_tri_raise_cases `{env : Env} name v t w e :
  fst (mesh_from_tri name v t w) = Raise e ->
  mesh_from_tri name v t w = (Raise e, w) \/
  (e = TypeError /\
   exists va ta,
     asarray v = Ok va /\ asarray_int t = Ok ta /\
     mesh_from_tri name v t w =
     (Raise TypeError,
      mk_world
        (mk_bpy
           (meshes (host w) ++ [refused_mesh (host w) name va ta])
           (materials (host w)) (cameras (host w)) (lights (host w))
           (objects (host w)) (scene (host w)) (use_denoising (host w)))
        (fs w) (streams w) (clock w))).
Proof.
  destruct (asarray v) as [va|ev] eqn:Hv.
  - destruct (asarray_int t) as [ta|et] eqn:Ht.
    + destruct (conformingb va 3 && conformingb ta 3) eqn:Hc.
      * destruct (indices_fit (rows ta)) eqn:Hi.
        -- rewrite (mesh_from_tri_ok name v t va ta w Hv Ht Hc Hi). discriminate.
        -- rewrite (mesh_from_tri_refused name v t va ta w Hv Ht Hc Hi).
           intros H. injection H as <-. right. split; [reflexivity|].
           exists va, ta. auto.
      * rewrite (mesh_from_tri_fail name v t va ta w Hv Ht Hc).
        intros H. injection H as <-. left. reflexivity.
    + unfold mesh_from_tri. rewrite Hv, Ht.
      intros H. injection H as <-. left. reflexivity.
  - unfold mesh_from_tri. rewrite Hv.
    intros H. injection H as <-. left. reflexivity.
Qed.

(** X1. [mesh_from_tri] converts and checks its arguments before it makes
    any host call: when it raises [AssertionError], or anything but the
    [TypeError] of the host, the world is as it was.  When the host
    refuses the triangles with [TypeError], the new mesh is left among
    the host's meshes, without an object. *)
Theorem mesh_from_tri_raises_unchanged `{env : Env} name v t w e :
  fst (mesh_from_tri name v t w) = Raise e ->
  (e <> TypeError -> snd (mesh_from_tri name v t w) = w) /\
  (snd (mesh_from_tri name v t w) = w \/
   e = TypeError /\
   exists m,
     meshes (host (snd (mesh_from_tri name v t w))) = meshes (host w) ++ [m] /\
     color_attributes m = [] /\ mesh_materials m = [] /\
     objects (host (snd (mesh_from_tri name v t w))) = objects (host w)).
Proof.
  intros H.
  destruct (mesh_from_tri_raise_cases name v t w e H)
    as [E|[-> [va [ta [_ [_ E]]]]]]; rewrite E; simpl.
  - split; [reflexivity | left; reflexivity].
  - split; [intros N; contradiction|].
    right. split; [reflexivity|]. eexists. repeat split.
Qed.

Lemma mesh_from_tri_raises_unchanged_witness :
  snd (mesh_from_tri (env := Example.env) "mesh" Example.vertices
         (Seq [Num 0; Num 1; Num 2]%Z) Example.w0) = Example.w0.
Proof.
  apply (@mesh_from_tri_raises_unchanged Example.env "mesh" Example.vertices
           (Seq [Num 0; Num 1; Num 2]%Z) Example.w0 AssertionError).
  - reflexivity.
  - discriminate.
Defined.

(** X2. [add_vertex_colors] checks the shape of the colors before it looks
    at the object: an array that is not two-dimensional with 4 columns is
    refused with [AssertionError] whatever [obj] is, and no attribute is
    allocated. *)
Theorem add_vertex_colors_checks_first `{env : Env} obj name colors ca w :
  asarray colors = Ok ca ->
  ~ conforming ca 4 ->
  add_vertex_colors obj name colors w = (Raise AssertionError, w).
Proof.
  intros Hc Hn. apply (add_vertex_colors_reject obj name colors ca w Hc).
  destruct (conformingb ca 4) eqn:Hb; [|reflexivity].
  exfalso. apply Hn. apply conformingb_spec. exact Hb.
Qed.

Lemma add_vertex_colors_checks_first_witness :
  add_vertex_colors (env := Example.env) 99 "Col"
    (Seq [Seq [Num 1; Num 0; Num 0]]%R) Example.w0 =
  (Raise AssertionError, Example.w0).
Proof.
  apply (@add_vertex_colors_checks_first Example.env 99 "Col"
           (Seq [Seq [Num 1; Num 0; Num 0]]%R)
           (mk_ndarray [1%nat; 3%nat] [1; 0; 0]%R) Example.w0 eq_refl).
  intros [_ H]. discriminate H.
Defined.

(** ** What a call writes *)

(** X3. Called with a path, [render_tri] writes to no stream and to no
    file but the one the host saves the image to; when it raises, it has
    written no file at all. *)
Theorem path_call_writes_one_file `{env : Env} p v t kw w :
  streams (snd (render_tri (OutPath p) v t kw w)) = streams w /\
  (forall q,
     save_path (host (snd (render_tri (OutPath p) v t kw w))) p <> Ok q ->
     fs (snd (render_tri (OutPath p) v t kw w)) q = fs w q) /\
  (is_ok (fst (render_tri (OutPath p) v t kw w)) = false ->
   fs (snd (render_tri (OutPath p) v t kw w)) = fs w).
Proof.
  rewrite render_tri_path, render_tri_impl_run.
  pose proof (prepare_render_settings p v t kw w) as Hs.
  pose proof (host_only_frame _ w (host_only_prepare p v t kw)) as Hfr.
  destruct (render_tri_prepare p v t kw w) as [[[]|e] w']; simpl in Hfr.
  - destruct (Hs tt w' eq_refl) as [_ [Hr _]].
    unfold ops_render_render. rewrite Hr. run_fields.
    destruct (save_path (host w') p) as [q'|e] eqn:Hsave; run_fields.
    + split; [rewrite Hfr; reflexivity|]. split; [|discriminate].
      intros q Hq. unfold write_file.
      destruct (String.eqb q q') eqn:E.
      * apply String.eqb_eq in E. subst q'. rewrite Hsave in Hq.
        contradiction.
      * rewrite Hfr. reflexivity.
    + rewrite Hfr. run_fields. auto.
  - run_fields. rewrite Hfr. auto.
Qed.

(** Nothing is left inside the temporary directory of a call with a
    stream, and no other stream is written to. *)
Lemma stream_call_cleans_up_files `{env : Env} h v t kw w :
  (forall q, String.prefix (String.append (mkdtemp (fs w)) "/") q = true ->
             fs (snd (render_tri (OutStream h) v t kw w)) q = None) /\
  (forall k, k <> h ->
             streams (snd (render_tri (OutStream h) v t kw w)) k = streams w k).
Proof.
  rewrite render_tri_stream. cbv zeta.
  pose proof (host_only_frame _ w
                (host_only_prepare
                   (String.append (mkdtemp (fs w)) "/out.png") v t kw)) as Hfr.
  destruct (render_tri_prepare _ v t kw w) as [[[]|e] w']; simpl in Hfr.
  - destruct (save_path (host w') _) as [q'|e].
    + destruct (write_file q' _ (fs w') _) as [bytes|]; run_fields.
      * split; [intros q Hq; rewrite Hq; reflexivity|].
        intros k Hk. apply Nat.eqb_neq in Hk. rewrite Hk, Hfr. reflexivity.
      * split; [intros q Hq; rewrite Hq; reflexivity|].
        intros k Hk. rewrite Hfr. reflexivity.
    + run_fields. split; [intros q Hq; rewrite Hq; reflexivity|].
      intros k Hk. rewrite Hfr. reflexivity.
  - run_fields. split; [intros q Hq; rewrite Hq; reflexivity|].
    intros k Hk. rewrite Hfr. reflexivity.
Qed.

(** X4. Called with a stream, [render_tri] leaves nothing inside the
    temporary directory, however the call ends, and outside of it changes
    no file but one the host should save the image to; it writes to no
    other stream; when it returns, one write has been made to the stream,
    at the position the stream was at, and when it raises, none. *)
Theorem stream_call_cleans_up `{env : Env} h v t kw w :
  (forall q, String.prefix (String.append (mkdtemp (fs w)) "/") q = true ->
             fs (snd (render_tri (OutStream h) v t kw w)) q = None) /\
  (forall q, String.prefix (String.append (mkdtemp (fs w)) "/") q = false ->
             save_path (host (snd (render_tri (OutStream h) v t kw w)))
                       (path_used (OutStream h) w) <> Ok q ->
             fs (snd (render_tri (OutStream h) v t kw w)) q = fs w q) /\
  (forall k, k <> h ->
             streams (snd (render_tri (OutStream h) v t kw w)) k = streams w k) /\
  (fst (render_tri (OutStream h) v t kw w) = Ok tt ->
   exists written,
     streams (snd (render_tri (OutStream h) v t kw w)) h =
     stream_write written (streams w h)) /\
  (is_ok (fst (render_tri (OutStream h) v t kw w)) = false ->
   streams (snd (render_tri (OutStream h) v t kw w)) h = streams w h).
Proof.
  unfold path_used. rewrite render_tri_stream. cbv zeta.
  pose proof (host_only_frame _ w
                (host_only_prepare
                   (String.append (mkdtemp (fs w)) "/out.png") v t kw)) as Hfr.
  destruct (render_tri_prepare _ v t kw w) as [[[]|e] w']; simpl in Hfr;
    run_fields.
  - assert (Hout : forall q q' bytes,
               save_path (host w') (String.append (mkdtemp (fs w)) "/out.png")
               = Ok q' ->
               save_path (host w') (String.append (mkdtemp (fs w)) "/out.png")
               <> Ok q ->
               write_file q' bytes (fs w') q = fs w q).
    { intros q q' bytes Hsave Hq. unfold write_file.
      destruct (String.eqb q q') eqn:E.
      - apply String.eqb_eq in E. subst q'. contradiction.
      - rewrite Hfr. reflexivity. }
    destruct (save_path (host w') _) as [q'|e] eqn:Hsave.
    + destruct (write_file q' _ (fs w') _) as [bytes|] eqn:Hread; run_fields.
      * split; [intros q Hq; rewrite Hq; reflexivity|].
        split; [intros q Hq Hne; rewrite Hq; rewrite Hsave in Hne;
                apply (Hout q q' _ eq_refl Hne)|].
        split; [intros k Hk; apply Nat.eqb_neq in Hk; rewrite Hk, Hfr;
                reflexivity|].
        split; [|discriminate].
        intros _. exists bytes. rewrite Nat.eqb_refl, Hfr. reflexivity.
      * split; [intros q Hq; rewrite Hq; reflexivity|].
        split; [intros q Hq Hne; rewrite Hq; rewrite Hsave in Hne;
                apply (Hout q q' _ eq_refl Hne)|].
        split; [intros k Hk; rewrite Hfr; reflexivity|].
        split; [discriminate|]. intros _. rewrite Hfr. reflexivity.
    + run_fields.
      split; [intros q Hq; rewrite Hq; reflexivity|].
      split; [intros q Hq _; rewrite Hq, Hfr; reflexivity|].
      split; [intros k Hk; rewrite Hfr; reflexivity|].
      split; [discriminate|]. intros _. rewrite Hfr. reflexivity.
  - split; [intros q Hq; rewrite Hq; reflexivity|].
    split; [intros q Hq _; rewrite Hq, Hfr; reflexivity|].
    split; [intros k _; rewrite Hfr; reflexivity|].
    split; [discriminate|]. intros _. rewrite Hfr. reflexivity.
Qed.

(** ** The color step and the scene *)

Lemma scene_frame_ret {A} (a : A) : scene_frame (ret a).
Proof. intros w; repeat split. Qed.

Lemma scene_frame_raise {A} (e : exn) : scene_frame (@raise A e).
Proof. intros w; repeat split. Qed.

Lemma scene_frame_lift {A} (r : result A) : scene_frame (lift r).
Proof. destruct r; [apply scene_frame_ret | apply scene_frame_raise]. Qed.

Lemma scene_frame_get_host : scene_frame get_host.
Proof. intros w; repeat split. Qed.

Lemma scene_frame_py_assert (c : result bool) : scene_frame (py_assert c).
Proof.
  destruct c as [[|]|e]; [apply scene_frame_ret | apply scene_frame_raise ..].
Qed.

Lemma scene_frame_set_meshes (f : list Mesh -> list Mesh) :
  scene_frame (modify_host (set_meshes f)).
Proof. intros w; repeat split. Qed.

Lemma scene_frame_set_materials (f : list Material -> list Material) :
  scene_frame (modify_host (set_materials f)).
Proof. intros w; repeat split. Qed.

Lemma scene_frame_bind {A B} (m : M A) (k : A -> M B) :
  scene_frame m -> (forall a, scene_frame (k a)) -> scene_frame (bind m k).
Proof.
  intros Hm Hk w. unfold bind.
  destruct (Hm w) as [H1 [H2 [H3 [H4 H5]]]].
  destruct (m w) as [[a|e] w1]; simpl in *.
  - destruct (Hk a w1) as [K1 [K2 [K3 [K4 K5]]]].
    repeat split; congruence.
  - repeat split; assumption.
Qed.

Ltac scene_frame_step :=
  first
    [ apply scene_frame_ret
    | apply scene_frame_raise
    | apply scene_frame_lift
    | apply scene_frame_get_host
    | apply scene_frame_py_assert
    | apply scene_frame_set_meshes
    | apply scene_frame_set_materials
    | apply scene_frame_bind; [|intro]
    | match goal with
      | |- scene_frame (match ?x with _ => _ end) => destruct x
      | |- scene_frame (if ?x then _ else _) => destruct x
      end ].

Lemma scene_frame_copy_colors `{env : Env} attr colors :
  forall i, scene_frame (copy_colors attr i colors).
Proof.
  induction colors as [|c rest IH]; intros i; simpl.
  - apply scene_frame_ret.
  - unfold set_attr_color, get_attr, get_mesh.
    repeat scene_frame_step. apply IH.
Qed.

Lemma scene_frame_add_vertex_colors_and_material `{env : Env} obj name colors :
  scene_frame (add_vertex_colors_and_material obj name colors).
Proof.
  unfold add_vertex_colors_and_material, add_vertex_colors, obj_mesh,
    color_attributes_new, get_mesh, get_attr, materials_new, set_use_nodes,
    nodes_lookup, nodes_new, set_layer_name, links_new, materials_append,
    modify_material, get_material, obj_mesh.
  repeat first [ apply scene_frame_copy_colors | scene_frame_step ].
Qed.

(** The color step of [render_tri]. *)
Lemma scene_frame_colors `{env : Env} (colors : option (array_like R)) mesh :
  scene_frame
    (match colors with
     | None => ret tt
     | Some colors =>
         t <- lift (truth colors) ;;
         if t then add_vertex_colors_and_material mesh "Col" colors ;; ret tt
         else ret tt
     end).
Proof.
  destruct colors as [c|]; [|apply scene_frame_ret].
  repeat first
    [ apply scene_frame_add_vertex_colors_and_material | scene_frame_step ].
Qed.

(** A call of [mesh_from_tri] that returned. *)
Lemma mesh_from_tri_ok_inv `{env : Env} name v t w obj w1 :
  mesh_from_tri name v t w = (Ok obj, w1) ->
  exists va ta,
    asarray v = Ok va /\ asarray_int t = Ok ta /\
    conformingb va 3 && conformingb ta 3 = true /\
    indices_fit (rows ta) = true.
Proof.
  intros H.
  destruct (asarray v) as [va|ev] eqn:Hv.
  - destruct (asarray_int t) as [ta|et] eqn:Ht.
    + destruct (conformingb va 3 && conformingb ta 3) eqn:Hc.
      * destruct (indices_fit (rows ta)) eqn:Hi.
        -- exists va, ta. auto.
        -- rewrite (mesh_from_tri_refused name v t va ta w Hv Ht Hc Hi) in H.
           discriminate.
      * rewrite (mesh_from_tri_fail name v t va ta w Hv Ht Hc) in H.
        discriminate.
    + unfold mesh_from_tri in H. rewrite Hv, Ht in H. discriminate.
  - unfold mesh_from_tri in H. rewrite Hv in H. discriminate.
Qed.

(** X5. Every call of [render_tri] that gets to the render operator has
    made three objects, a mesh, a camera and a light, and linked them to
    the scene's root collection after everything that was linked there
    before: nothing is unlinked, so calls pile their objects up. *)
Theorem every_call_links_three_more `{env : Env} output v t kw w :
  fst (render_tri_prepare output v t kw w) = Ok tt ->
  scene_objects (scene (host (snd (render_tri_prepare output v t kw w)))) =
  scene_objects (scene (host w)) ++
    [length (objects (host w)); S (length (objects (host w)));
     S (S (length (objects (host w))))] /\
  exists mo co lo mi ci li,
    objects (host (snd (render_tri_prepare output v t kw w))) =
    objects (host w) ++ [mo; co; lo] /\
    obj_data mo = MeshData mi /\ obj_data co = CameraData ci /\
    obj_data lo = LightData li.
Proof.
  intros Hok.
  destruct (render_tri_prepare output v t kw w) as [r w'] eqn:E.
  simpl in Hok. subst r. simpl.
  unfold render_tri_prepare in E.
  apply bind_ok_inv in E. destruct E as [u0 [wa [E0 E]]].
  rewrite clear_scene_run in E0. injection E0 as _ <-.
  apply bind_ok_inv in E. destruct E as [mesh [w1 [Em E]]].
  destruct (mesh_from_tri_ok_inv _ _ _ _ _ _ Em) as [va [ta [Hv [Ht [Hc Hi]]]]].
  rewrite (mesh_from_tri_ok "mesh" v t va ta _ Hv Ht Hc Hi) in Em.
  injection Em as <- <-.
  apply bind_ok_inv in E. destruct E as [u1 [w2 [Ec E]]].
  match type of Ec with
  | _ ?w1 = _ =>
      pose proof (scene_frame_colors (Kw.colors kw)
                    (length (objects (host w))) w1) as [Ho [_ [_ [Hs _]]]]
  end.
  rewrite Ec in Ho, Hs.
  destruct w as [[ms mats cs ls os [ch so sc rs] d] f s c].
  destruct w2 as [[ms2 mats2 cs2 ls2 os2 [ch2 so2 sc2 rs2] d2] f2 s2 c2].
  unfold without_children in Ho, Hs. simpl in Ho, Hs.
  injection Hs as -> -> -> ->. subst os2.
  revert E. in_range kw. exec. intros E. injection E as <-. crunch.
  rewrite !length_app, <- !app_assoc. simpl.
  split.
  - do 4 f_equal; lia.
  - do 6 eexists. split; [reflexivity|]. repeat split.
Qed.

Lemma every_call_links_three_more_witness :
  scene_objects (scene (host (snd
    (render_tri_prepare (env := Example.env) "tri.png"
       Example.vertices Example.triangles Kw.default Example.w0)))) =
  [0; 1; 2]%nat.
Proof.
  refine (proj1 (@every_call_links_three_more Example.env "tri.png"
                   Example.vertices Example.triangles Kw.default Example.w0 _)).
  lazy. reflexivity.
Defined.

(** ** The camera and the light *)

(** X6. In a call that gets to the render operator, the scene's active
    camera is a new object linked to the root collection, turned by
    [camera_rotation] as the host holds it, in single precision, whose
    camera data has as its lens [camera_focal_length] in single
    precision, or 1 when that is less. *)
Theorem camera_set_up `{env : Env} output v t kw w :
  fst (render_tri_prepare output v t kw w) = Ok tt ->
  exists cam o ci c,
    scene_camera (scene (host (snd (render_tri_prepare output v t kw w)))) =
    Some cam /\
    In cam (scene_objects
              (scene (host (snd (render_tri_prepare output v t kw w))))) /\
    nth_error (objects (host (snd (render_tri_prepare output v t kw w)))) cam =
    Some o /\
    obj_data o = CameraData ci /\
    rotation_euler o = stored3 (Kw.camera_rotation kw) /\
    nth_error (cameras (host (snd (render_tri_prepare output v t kw w)))) ci =
    Some c /\
    lens c = Rmax 1 (f32 (Kw.camera_focal_length kw)).
Proof.
  intros Hok.
  assert (P : post (render_tri_prepare output v t kw)
                (fun w' =>
                   exists cam o ci c,
                     scene_camera (scene (host w')) = Some cam /\
                     In cam (scene_objects (scene (host w'))) /\
                     nth_error (objects (host w')) cam = Some o /\
                     obj_data o = CameraData ci /\
                     rotation_euler o = stored3 (Kw.camera_rotation kw) /\
                     nth_error (cameras (host w')) ci = Some c /\
                     lens c = Rmax 1 (f32 (Kw.camera_focal_length kw)))).
  { unfold render_tri_prepare.
    do 4 (apply post_bind; intro).
    intros w0 r w'.
    destruct w0 as [[ms mats cs ls os [ch so sc rs] d] f s c].
    in_range kw.
    exec. intros E. injection E as _ <-.
    exists (length os). eexists. exists (length cs). eexists.
    split; [crunch; reflexivity|].
    split; [crunch; rewrite !in_app_iff; simpl; auto|].
    split.
    { crunch. rewrite nth_error_snoc_lt by (rewrite length_app; simpl; lia).
      apply nth_error_snoc. }
    split; [reflexivity|]. split; [reflexivity|].
    split; [crunch; apply nth_error_snoc | reflexivity]. }
  specialize (P w).
  destruct (render_tri_prepare output v t kw w) as [[[]|e] w']; [|discriminate].
  exact (P tt w' eq_refl).
Qed.

Lemma camera_set_up_witness :
  exists cam o ci c,
    scene_camera (scene (host (snd
      (render_tri_prepare (env := Example.env) "tri.png"
         Example.vertices Example.triangles Kw.default Example.w0)))) =
    Some cam /\
    nth_error (objects (host (snd
      (render_tri_prepare (env := Example.env) "tri.png"
         Example.vertices Example.triangles Kw.default Example.w0)))) cam =
    Some o /\
    obj_data o = CameraData ci /\
    nth_error (cameras (host (snd
      (render_tri_prepare (env := Example.env) "tri.png"
         Example.vertices Example.triangles Kw.default Example.w0)))) ci =
    Some c /\
    lens c = 35%R.
Proof.
  destruct (@camera_set_up Example.env "tri.png" Example.vertices
              Example.triangles Kw.default Example.w0)
    as [cam [o [ci [c [H1 [_ [H3 [H4 [_ [H6 H7]]]]]]]]]].
  - lazy. reflexivity.
  - exists cam, o, ci, c.
    split; [exact H1|]. split; [exact H3|]. split; [exact H4|].
    split; [exact H6|]. rewrite H7. simpl.
    change (Example.env.(f32) 35%R) with (binary32 35).
    rewrite binary32_35. apply Rmax_right. lra.
Defined.

(** X7. In a call that gets to the render operator, a new point light
    is linked to the root collection, with [light_energy] as its energy
    and at (0, 0, light_distance), both as the host holds them, in single
    precision. *)
Theorem light_set_up `{env : Env} output v t kw w :
  fst (render_tri_prepare output v t kw w) = Ok tt ->
  exists obj o li l,
    In obj (scene_objects
              (scene (host (snd (render_tri_prepare output v t kw w))))) /\
    nth_error (objects (host (snd (render_tri_prepare output v t kw w)))) obj =
    Some o /\
    obj_data o = LightData li /\
    location o = stored3 (0, 0, Kw.light_distance kw)%R /\
    nth_error (lights (host (snd (render_tri_prepare output v t kw w)))) li =
    Some l /\
    light_type l = "POINT" /\
    energy l = f32 (Kw.light_energy kw).
Proof.
  intros Hok.
  assert (P : post (render_tri_prepare output v t kw)
                (fun w' =>
                   exists obj o li l,
                     In obj (scene_objects (scene (host w'))) /\
                     nth_error (objects (host w')) obj = Some o /\
                     obj_data o = LightData li /\
                     location o = stored3 (0, 0, Kw.light_distance kw)%R /\
                     nth_error (lights (host w')) li = Some l /\
                     light_type l = "POINT" /\
                     energy l = f32 (Kw.light_energy kw))).
  { unfold render_tri_prepare.
    do 14 (apply post_bind; intro).
    intros w0 r w'.
    destruct w0 as [[ms mats cs ls os [ch so sc rs] d] f s c].
    in_range kw.
    exec. intros E. injection E as _ <-.
    exists (length os). eexists. exists (length ls). eexists.
    split; [crunch; rewrite !in_app_iff; simpl; auto|].
    split; [crunch; apply nth_error_snoc|].
    split; [reflexivity|]. split; [reflexivity|].
    split; [crunch; apply nth_error_snoc|]. split; reflexivity. }
  specialize (P w).
  destruct (render_tri_prepare output v t kw w) as [[[]|e] w']; [|discriminate].
  exact (P tt w' eq_refl).
Qed.

Lemma light_set_up_witness :
  exists obj o li l,
    nth_error (objects (host (snd
      (render_tri_prepare (env := Example.env) "tri.png"
         Example.vertices Example.triangles Kw.default Example.w0)))) obj =
    Some o /\
    location o = (0, 0, 5)%R /\
    nth_error (lights (host (snd
      (render_tri_prepare (env := Example.env) "tri.png"
         Example.vertices Example.triangles Kw.default Example.w0)))) li =
    Some l /\
    energy l = 300%R.
Proof.
  destruct (@light_set_up Example.env "tri.png" Example.vertices
              Example.triangles Kw.default Example.w0)
    as [obj [o [li [l [_ [H2 [_ [H4 [H5 [_ H7]]]]]]]]]].
  - lazy. reflexivity.
  - exists obj, o, li, l.
    split; [exact H2|]. split; [|split; [exact H5|]].
    + rewrite H4. simpl.
      change (Example.env.(f32)) with binary32.
      rewrite binary32_0, binary32_5. reflexivity.
    + rewrite H7. simpl.
      change (Example.env.(f32)) with binary32.
      apply binary32_300.
Defined.

(** ** The copy loop, exactly *)

Lemma update_nth_ext_at {A} (f g : A -> A) (l : list A) (i : nat) (x : A) :
  nth_error l i = Some x -> f x = g x -> update_nth i f l = update_nth i g l.
Proof.
  revert i; induction l as [|y l IH]; intros [|i] H E; simpl in *;
    try discriminate.
  - injection H as ->. now rewrite E.
  - f_equal. now apply IH.
Qed.

Lemma update_nth_id_at {A} (f : A -> A) (l : list A) (i : nat) (x : A) :
  nth_error l i = Some x -> f x = x -> update_nth i f l = l.
Proof.
  revert i; induction l as [|y l IH]; intros [|i] H E; simpl in *;
    try discriminate.
  - injection H as ->. now rewrite E.
  - f_equal. now apply IH.
Qed.

Lemma update_nth_twice {A} (f g : A -> A) (l : list A) (i : nat) :
  update_nth i g (update_nth i f l) = update_nth i (fun x => g (f x)) l.
Proof.
  revert i; induction l as [|y l IH]; intros [|i]; simpl; auto.
  now rewrite IH.
Qed.

Lemma firstn_update_nth {A} (c : A) (d : list A) (i : nat) :
  (i < length d)%nat ->
  firstn (S i) (update_nth i (fun _ => c) d) = firstn i d ++ [c].
Proof.
  revert i; induction d as [|x d IH]; intros [|i] H; simpl in *; try lia.
  - reflexivity.
  - f_equal. apply IH. lia.
Qed.

Lemma skipn_update_nth {A} (c : A) (d : list A) (i k : nat) :
  (i < k)%nat ->
  skipn k (update_nth i (fun _ => c) d) = skipn k d.
Proof.
  revert i k; induction d as [|x d IH]; intros [|i] [|k] H; simpl; try lia;
    auto.
  apply IH. lia.
Qed.

Lemma overwrite_nil {A} (i : nat) (d : list A) : overwrite i [] d = d.
Proof.
  unfold overwrite. simpl. rewrite Nat.add_0_r. apply firstn_skipn.
Qed.

Lemma overwrite_cons {A} (i : nat) (c : A) (rest d : list A) :
  (i < length d)%nat ->
  overwrite (S i) rest (update_nth i (fun _ => c) d) = overwrite i (c :: rest) d.
Proof.
  intros H. unfold overwrite.
  rewrite firstn_update_nth by exact H.
  rewrite skipn_update_nth by lia.
  rewrite <- app_assoc.
  replace (i + length (c :: rest))%nat with (S i + length rest)%nat
    by (simpl; lia).
  reflexivity.
Qed.

Lemma length_overwrite {A} (i : nat) (xs d : list A) :
  (i + length xs <= length d)%nat -> length (overwrite i xs d) = length d.
Proof.
  intros H. unfold overwrite.
  rewrite !length_app, length_firstn, length_skipn. lia.
Qed.

Lemma attr_at_put_attr_data w mesh attr a d :
  attr_at w mesh attr a ->
  attr_at (put_attr_data (mesh, attr) d w) mesh attr
          (mk_Attribute (attr_name a) (attr_type a) (attr_domain a) d).
Proof.
  intros [m [Hm Ha]]. unfold attr_at, put_attr_data. run. simpl.
  rewrite nth_error_update_nth_eq, Hm. simpl.
  eexists. split; [reflexivity|]. simpl.
  rewrite nth_error_update_nth_eq, Ha. reflexivity.
Qed.

Lemma update_nth_ext {A} (f g : A -> A) (l : list A) (i : nat) :
  (forall x, f x = g x) -> update_nth i f l = update_nth i g l.
Proof.
  intros E. revert i; induction l as [|y l IH]; intros [|i]; simpl; auto.
  - now rewrite E.
  - now rewrite IH.
Qed.

Lemma put_attr_data_twice attr d1 d2 w :
  put_attr_data attr d2 (put_attr_data attr d1 w) = put_attr_data attr d2 w.
Proof.
  destruct w as [[ms mats cs ls os sc d] f s c].
  unfold put_attr_data, set_meshes. cbn [host fs streams meshes materials
    cameras lights objects scene use_denoising].
  rewrite update_nth_twice. do 2 f_equal.
  apply update_nth_ext. intros m. simpl.
  rewrite update_nth_twice. reflexivity.
Qed.

Lemma put_attr_data_same w mesh attr a :
  attr_at w mesh attr a ->
  put_attr_data (mesh, attr) (attr_data a) w = w.
Proof.
  intros [m [Hm Ha]]. unfold put_attr_data. simpl.
  destruct w as [[ms mats cs ls os sc d] f s c]. simpl in *.
  unfold set_meshes. simpl. do 2 f_equal.
  apply (update_nth_id_at _ _ _ m Hm).
  destruct m as [n vs es fs_ attrs mm]. simpl in *. f_equal.
  apply (update_nth_id_at _ _ _ a Ha).
  destruct a; reflexivity.
Qed.

Lemma set_attr_color_exact `{env : Env} mesh attr i color w a :
  attr_at w mesh attr a ->
  (i < length (attr_data a))%nat ->
  set_attr_color (mesh, attr) i color w =
  (Ok tt,
   put_attr_data (mesh, attr)
     (update_nth i (fun _ => stored color) (attr_data a)) w).
Proof.
  intros [m [Hm Ha]] Hi.
  unfold set_attr_color, get_attr, get_mesh. run. rewrite Hm. run.
  rewrite Ha. run.
  apply Nat.ltb_lt in Hi. rewrite Hi.
  unfold put_attr_data. run. simpl. do 3 f_equal.
  apply (update_nth_ext_at _ _ _ _ m Hm). f_equal.
  apply (update_nth_ext_at _ _ _ _ a Ha). reflexivity.
Qed.

(** The loop overwrites the entries from [i] on with its rows, as the
    host holds them, and touches nothing else in the world. *)
Lemma copy_colors_exact `{env : Env} mesh attr colors :
  forall i w a,
    attr_at w mesh attr a ->
    (i + length colors <= length (attr_data a))%nat ->
    copy_colors (mesh, attr) i colors w =
    (Ok tt,
     put_attr_data (mesh, attr) (overwrite i (map stored colors) (attr_data a)) w).
Proof.
  induction colors as [|color rest IH]; intros i w a Hat Hlen.
  - simpl. rewrite overwrite_nil, (put_attr_data_same w mesh attr a Hat).
    reflexivity.
  - simpl in Hlen. simpl copy_colors. unfold bind at 1.
    rewrite (set_attr_color_exact mesh attr i color w a Hat) by lia.
    rewrite (IH (S i) _ _ (attr_at_put_attr_data w mesh attr a _ Hat))
      by (simpl; rewrite length_update_nth; lia).
    simpl attr_data. simpl map.
    rewrite put_attr_data_twice, overwrite_cons by lia.
    reflexivity.
Qed.

Lemma skipn_repeat_sub {A} (x : A) (n k : nat) :
  skipn k (repeat x n) = repeat x (n - k).
Proof.
  revert k; induction n as [|n IH]; intros [|k]; simpl; auto.
Qed.

Lemma attr_at_with_attribute w mesh m a :
  nth_error (meshes (host w)) mesh = Some m ->
  attr_at (with_attribute mesh a w) mesh (length (color_attributes m)) a.
Proof.
  intros Hm. unfold attr_at, with_attribute. run. simpl.
  rewrite nth_error_update_nth_eq, Hm. simpl.
  eexists. split; [reflexivity|]. simpl. apply nth_error_snoc.
Qed.

Lemma put_attr_data_with_attribute w mesh m a d :
  nth_error (meshes (host w)) mesh = Some m ->
  put_attr_data (mesh, length (color_attributes m)) d (with_attribute mesh a w) =
  with_attribute mesh
    (mk_Attribute (attr_name a) (attr_type a) (attr_domain a) d) w.
Proof.
  intros Hm. destruct w as [[ms mats cs ls os sc dn] f s c].
  unfold put_attr_data, with_attribute, set_meshes.
  cbn [host fs streams meshes materials cameras lights objects scene
       use_denoising fst snd] in *.
  rewrite update_nth_twice. do 2 f_equal.
  apply (update_nth_ext_at _ _ _ _ m Hm). simpl.
  rewrite update_nth_snoc. reflexivity.
Qed.

(** What [add_vertex_colors] leaves behind for K rows of 4 columns on a
    mesh of N >= K vertices: the world with one more attribute on the
    mesh, holding the rows in single precision and then the default
    color. *)
Lemma add_vertex_colors_exact `{env : Env} obj name colors ca w mesh m K :
  asarray colors = Ok ca ->
  shape ca = [K; 4%nat] ->
  mesh_of w obj mesh m ->
  (K <= length (mesh_vertices m))%nat ->
  add_vertex_colors obj name colors w =
  (Ok (mesh, length (color_attributes m)),
   with_attribute mesh
     (mk_Attribute (unique_name name (map attr_name (color_attributes m)))
                   "FLOAT_COLOR" "POINT"
                   (map stored (array_rows K 4 (data ca)) ++
                    repeat default_color (length (mesh_vertices m) - K)))
     w).
Proof.
  intros Hc Hs [o [Ho [Hd Hm]]] HK.
  unfold add_vertex_colors, obj_mesh, color_attributes_new, get_mesh.
  rewrite Hc. run.
  rewrite color_assertion_value, (conformingb_shape _ _ _ Hs). run.
  rewrite Ho, Hd. run. rewrite Hm. run.
  match goal with
  | |- context [copy_colors _ _ _ ?w1] =>
      replace w1 with
        (with_attribute mesh
           (mk_Attribute (unique_name name (map attr_name (color_attributes m)))
                         "FLOAT_COLOR" "POINT"
                         (repeat default_color (length (mesh_vertices m))))
           w)
  end.
  - rewrite (copy_colors_exact mesh _ _ 0 _ _ (attr_at_with_attribute w mesh m _ Hm)).
    + rewrite (put_attr_data_with_attribute w mesh m _ _ Hm).
      simpl. unfold overwrite. simpl.
      rewrite (rows_shape _ _ _ Hs), length_map, length_array_rows,
        skipn_repeat_sub.
      reflexivity.
    + simpl. rewrite (rows_shape _ _ _ Hs), length_array_rows, repeat_length.
      exact HK.
  - unfold with_attribute, set_meshes. do 2 f_equal.
    apply (update_nth_ext_at _ _ _ _ m Hm). reflexivity.
Qed.

(** X8. With K rows of 4 columns on a mesh of N >= K vertices,
    [add_vertex_colors] changes the world by exactly one new attribute on
    that mesh: it has N entries, the first K are the rows as the host
    holds them, in single precision, the others keep the host's default
    color. *)
Theorem add_vertex_colors_adds_one_attribute `{env : Env}
    obj name colors ca w mesh m K :
  asarray colors = Ok ca ->
  shape ca = [K; 4%nat] ->
  mesh_of w obj mesh m ->
  (K <= length (mesh_vertices m))%nat ->
  exists a,
    add_vertex_colors obj name colors w =
    (Ok (mesh, length (color_attributes m)), with_attribute mesh a w) /\
    attr_name a = unique_name name (map attr_name (color_attributes m)) /\
    length (attr_data a) = length (mesh_vertices m) /\
    (forall i, (i < K)%nat ->
               nth_error (attr_data a) i = Some (stored (row ca 4 i))) /\
    (forall i, (K <= i < length (mesh_vertices m))%nat ->
               nth_error (attr_data a) i = Some default_color).
Proof.
  intros Hc Hs Hobj HK.
  eexists. split;
    [exact (add_vertex_colors_exact obj name colors ca w mesh m K Hc Hs Hobj HK)|].
  simpl. split; [reflexivity|]. split; [|split].
  - rewrite length_app, length_map, length_array_rows, repeat_length. lia.
  - intros i Hi.
    rewrite nth_error_app1
      by (rewrite length_map, length_array_rows; exact Hi).
    rewrite nth_error_map, nth_error_array_rows by exact Hi. reflexivity.
  - intros i [H1 H2].
    rewrite nth_error_app2
      by (rewrite length_map, length_array_rows; exact H1).
    rewrite length_map, length_array_rows.
    apply nth_error_repeat. lia.
Qed.

Lemma add_vertex_colors_adds_one_attribute_witness :
  exists a,
    add_vertex_colors (env := Example.env) 0 "Col" Example.two_colors Example.w1 =
    (Ok (0%nat, 0%nat), with_attribute 0 a Example.w1) /\
    nth_error (attr_data a) 2 = Some [1; 1; 1; 1]%R.
Proof.
  destruct (@add_vertex_colors_adds_one_attribute Example.env 0 "Col"
              Example.two_colors
              (mk_ndarray [2%nat; 4%nat] [1; 0; 0; 1; 1; 0; 0; 1]%R)
              Example.w1 0 Example.triangle_mesh 2
              eq_refl eq_refl example_mesh_of)
    as [a [H1 [_ [_ [_ H5]]]]].
  - simpl. lia.
  - exists a. split; [exact H1|]. apply H5. simpl. lia.
Defined.

(** The loop when it runs off the end: the entries up to the end are
    overwritten and [IndexError] is raised. *)
Lemma copy_colors_overflow `{env : Env} mesh attr colors :
  forall i w a,
    attr_at w mesh attr a ->
    (i <= length (attr_data a))%nat ->
    (length (attr_data a) < i + length colors)%nat ->
    copy_colors (mesh, attr) i colors w =
    (Raise IndexError,
     put_attr_data (mesh, attr)
       (overwrite i (firstn (length (attr_data a) - i) (map stored colors))
                  (attr_data a)) w).
Proof.
  induction colors as [|color rest IH]; intros i w a Hat Hi Hlen.
  - simpl in Hlen. lia.
  - simpl in Hlen. simpl copy_colors. unfold bind at 1.
    destruct (Nat.eq_dec i (length (attr_data a))) as [E|E].
    + rewrite (set_attr_color_fail mesh attr i color w a Hat) by lia.
      replace (length (attr_data a) - i)%nat with 0%nat by lia.
      simpl firstn. rewrite overwrite_nil, (put_attr_data_same w mesh attr a Hat).
      reflexivity.
    + rewrite (set_attr_color_exact mesh attr i color w a Hat) by lia.
      rewrite (IH (S i) _ _ (attr_at_put_attr_data w mesh attr a _ Hat))
        by (simpl; rewrite length_update_nth; lia).
      simpl attr_data. rewrite length_update_nth, put_attr_data_twice.
      replace (length (attr_data a) - i)%nat
        with (S (length (attr_data a) - S i))%nat by lia.
      simpl map. simpl firstn. rewrite overwrite_cons by lia. reflexivity.
Qed.

(** X9. With more rows than the mesh has vertices, [add_vertex_colors]
    raises [IndexError] only after it has allocated the attribute and
    filled every entry: the attribute stays on the mesh, holding the first
    N rows as the host holds them, in single precision. *)
Theorem add_vertex_colors_overflow `{env : Env} obj name colors ca w mesh m K :
  asarray colors = Ok ca ->
  shape ca = [K; 4%nat] ->
  mesh_of w obj mesh m ->
  (length (mesh_vertices m) < K)%nat ->
  add_vertex_colors obj name colors w =
  (Raise IndexError,
   with_attribute mesh
     (mk_Attribute (unique_name name (map attr_name (color_attributes m)))
                   "FLOAT_COLOR" "POINT"
                   (firstn (length (mesh_vertices m))
                           (map stored (array_rows K 4 (data ca)))))
     w).
Proof.
  intros Hc Hs [o [Ho [Hd Hm]]] HK.
  unfold add_vertex_colors, obj_mesh, color_attributes_new, get_mesh.
  rewrite Hc. run.
  rewrite color_assertion_value, (conformingb_shape _ _ _ Hs). run.
  rewrite Ho, Hd. run. rewrite Hm. run.
  match goal with
  | |- context [copy_colors _ _ _ ?w1] =>
      replace w1 with
        (with_attribute mesh
           (mk_Attribute (unique_name name (map attr_name (color_attributes m)))
                         "FLOAT_COLOR" "POINT"
                         (repeat default_color (length (mesh_vertices m))))
           w)
  end.
  - rewrite (copy_colors_overflow mesh _ _ 0 _ _
               (attr_at_with_attribute w mesh m _ Hm)).
    + rewrite (put_attr_data_with_attribute w mesh m _ _ Hm).
      simpl. unfold overwrite. simpl.
      rewrite repeat_length, Nat.sub_0_r, (rows_shape _ _ _ Hs).
      rewrite length_firstn, length_map, length_array_rows, Nat.min_l by lia.
      rewrite skipn_repeat_sub, Nat.sub_diag. simpl.
      rewrite app_nil_r. reflexivity.
    + lia.
    + simpl. rewrite (rows_shape _ _ _ Hs), length_array_rows, repeat_length.
      exact HK.
  - unfold with_attribute, set_meshes. do 2 f_equal.
    apply (update_nth_ext_at _ _ _ _ m Hm). reflexivity.
Qed.

Lemma add_vertex_colors_overflow_witness :
  exists a,
    add_vertex_colors (env := Example.env) 0 "Col"
      (Seq [Example.red; Example.red; Example.red; Example.red]) Example.w1 =
    (Raise IndexError, with_attribute 0 a Example.w1) /\
    length (attr_data a) = 3%nat.
Proof.
  eexists. split.
  - apply (@add_vertex_colors_overflow Example.env 0 "Col"
             (Seq [Example.red; Example.red; Example.red; Example.red])
             (mk_ndarray [4%nat; 4%nat]
                [1; 0; 0; 1; 1; 0; 0; 1; 1; 0; 0; 1; 1; 0; 0; 1]%R)
             Example.w1 0 Example.triangle_mesh 4
             eq_refl eq_refl example_mesh_of).
    simpl. lia.
  - reflexivity.
Defined.

(** ** Building a mesh and coloring it *)

(** X10. [mesh_from_tri] and [add_vertex_colors] fit together: on the
    object made from N vertices and triangles the host takes, an array of
    N rows and 4 columns is accepted, and the new attribute holds exactly
    its rows as the host holds them, in single precision, one per vertex,
    with no default color left. *)
Theorem color_the_mesh_just_built `{env : Env}
    name v t va ta cname colors ca w N :
  asarray v = Ok va -> shape va = [N; 3%nat] ->
  asarray_int t = Ok ta -> conforming ta 3 ->
  indices_fit (rows ta) = true ->
  asarray colors = Ok ca -> shape ca = [N; 4%nat] ->
  exists obj w1 attr a,
    mesh_from_tri name v t w = (Ok obj, w1) /\
    fst (add_vertex_colors obj cname colors w1) = Ok attr /\
    attr_at (snd (add_vertex_colors obj cname colors w1)) (fst attr) (snd attr) a /\
    attr_data a = map stored (array_rows N 4 (data ca)).
Proof.
  intros Hv Hsv Ht Hct Hi Hc Hsc.
  assert (Hconf : conformingb va 3 && conformingb ta 3 = true).
  { apply andb_true_iff. split.
    - exact (conformingb_shape _ _ _ Hsv).
    - apply conformingb_spec. exact Hct. }
  assert (HN : length (map stored (rows va)) = N)
    by (rewrite length_map, (rows_shape _ _ _ Hsv); apply length_array_rows).
  pose proof (mesh_from_tri_ok name v t va ta w Hv Ht Hconf Hi) as Hrun.
  match type of Hrun with
  | _ = (_, ?w1) =>
      assert (Hobj : mesh_of w1 (length (objects (host w)))
                       (length (meshes (host w)))
                       (plain_mesh (host w) name va ta))
  end.
  { eexists. run. split; [apply nth_error_snoc|].
    split; [reflexivity | apply nth_error_snoc]. }
  pose proof (add_vertex_colors_exact _ cname colors ca _ _ _ N Hc Hsc Hobj) as Hadd.
  specialize (Hadd ltac:(simpl; rewrite HN; apply le_n)).
  destruct Hobj as [o [_ [_ Hm]]].
  do 4 eexists. split; [exact Hrun|]. rewrite Hadd.
  split; [reflexivity|]. split.
  - apply (attr_at_with_attribute _ _ _ _ Hm).
  - simpl. rewrite HN, Nat.sub_diag. simpl. apply app_nil_r.
Qed.

Lemma color_the_mesh_just_built_witness :
  exists obj w1 attr a,
    mesh_from_tri (env := Example.env) "mesh" Example.vertices
      Example.triangles Example.w0 = (Ok obj, w1) /\
    fst (add_vertex_colors (env := Example.env) obj "Col"
           Example.three_colors w1) = Ok attr /\
    attr_at (snd (add_vertex_colors (env := Example.env) obj "Col"
                    Example.three_colors w1)) (fst attr) (snd attr) a /\
    attr_data a = map (map binary32) (array_rows 3 4 (data Example.color_array)).
Proof.
  apply (@color_the_mesh_just_built Example.env "mesh" Example.vertices
           Example.triangles
           (mk_ndarray [3%nat; 3%nat] [0; 0; 0; 1; 0; 0; 0; 1; 0]%R)
           (mk_ndarray [1%nat; 3%nat] [0; 1; 2]%Z)
           "Col" Example.three_colors Example.color_array Example.w0 3);
    try reflexivity.
  split; reflexivity.
Defined.

(** ** Calls of render_tri that raise *)

(** When [mesh_from_tri] refuses its arguments in one world before it
    gets to the host, it refuses them in every world. *)
Lemma mesh_from_tri_refuses_anywhere `{env : Env} name v t w e :
  fst (mesh_from_tri name v t w) = Raise e ->
  e <> TypeError ->
  forall w', mesh_from_tri name v t w' = (Raise e, w').
Proof.
  intros H Hne w'.
  destruct (asarray v) as [va|ev] eqn:Hv.
  - destruct (asarray_int t) as [ta|et] eqn:Ht.
    + destruct (conformingb va 3 && conformingb ta 3) eqn:Hc.
      * destruct (indices_fit (rows ta)) eqn:Hi.
        -- rewrite (mesh_from_tri_ok name v t va ta w Hv Ht Hc Hi) in H.
           discriminate.
        -- rewrite (mesh_from_tri_refused name v t va ta w Hv Ht Hc Hi) in H.
           injection H as <-. contradiction.
      * rewrite (mesh_from_tri_fail name v t va ta w Hv Ht Hc) in H.
        injection H as <-.
        apply (mesh_from_tri_fail name v t va ta w' Hv Ht Hc).
    + unfold mesh_from_tri in *. rewrite Hv, Ht in *.
      injection H as <-. reflexivity.
  - unfold mesh_from_tri in *. rewrite Hv in *. injection H as <-. reflexivity.
Qed.

(** X11. When the vertices or triangles are refused before the host is
    asked for a mesh, with [AssertionError] or with what numpy raises,
    [render_tri] raises the same, for a path and for a stream alike, and
    has made no data-block, linked no object and changed no render
    setting. *)
Theorem refused_geometry_changes_nothing `{env : Env} output v t kw w e :
  fst (mesh_from_tri "mesh" v t w) = Raise e ->
  e <> TypeError ->
  fst (render_tri output v t kw w) = Raise e /\
  meshes (host (snd (render_tri output v t kw w))) = meshes (host w) /\
  materials (host (snd (render_tri output v t kw w))) = materials (host w) /\
  cameras (host (snd (render_tri output v t kw w))) = cameras (host w) /\
  lights (host (snd (render_tri output v t kw w))) = lights (host w) /\
  objects (host (snd (render_tri output v t kw w))) = objects (host w) /\
  scene_objects (scene (host (snd (render_tri output v t kw w)))) =
  scene_objects (scene (host w)) /\
  scene_camera (scene (host (snd (render_tri output v t kw w)))) =
  scene_camera (scene (host w)) /\
  render (scene (host (snd (render_tri output v t kw w)))) =
  render (scene (host w)) /\
  use_denoising (host (snd (render_tri output v t kw w))) =
  use_denoising (host w).
Proof.
  intros Hm Hne.
  destruct (render_tri_outcome output v t kw w) as [_ [Hr Hh]].
  assert (E : render_tri_prepare (path_used output w) v t kw w =
              (Raise e, without_children w)).
  { unfold render_tri_prepare.
    unfold bind at 1. rewrite clear_scene_run.
    unfold bind at 1.
    rewrite (mesh_from_tri_refuses_anywhere "mesh" v t w e Hm Hne). reflexivity. }
  rewrite (Hr e) by (rewrite E; reflexivity).
  rewrite Hh, E. unfold without_children. run. repeat split; reflexivity.
Qed.

Lemma refused_geometry_changes_nothing_witness :
  fst (render_tri (env := Example.env) (OutStream 7) Example.vertices
         (Seq [Num 0; Num 1; Num 2]%Z) Kw.default Example.w0) =
  Raise AssertionError /\
  render (scene (host (snd
    (render_tri (env := Example.env) (OutStream 7) Example.vertices
       (Seq [Num 0; Num 1; Num 2]%Z) Kw.default Example.w0)))) =
  render (scene (host Example.w0)).
Proof.
  assert (N : AssertionError <> TypeError) by discriminate.
  pose proof (@refused_geometry_changes_nothing Example.env (OutStream 7)
                Example.vertices (Seq [Num 0; Num 1; Num 2]%Z) Kw.default
                Example.w0 AssertionError eq_refl N) as H.
  split; [exact (proj1 H)|].
  exact (proj1 (proj2 (proj2 (proj2 (proj2 (proj2 (proj2 (proj2 (proj2 H))))))))).
Defined.

(** X12. Colors that are taken as given but are not two-dimensional with
    4 columns are refused only after the mesh is built: [render_tri]
    raises [AssertionError] and leaves the new mesh, without color
    attribute and material, and its object behind, linked to nothing,
    with no camera and no light made. *)
Theorem refused_colors_leave_mesh_behind `{env : Env}
    output v t va ta kw w colors ca :
  asarray v = Ok va -> asarray_int t = Ok ta ->
  conforming va 3 -> conforming ta 3 ->
  indices_fit (rows ta) = true ->
  Kw.colors kw = Some colors -> truth colors = Ok true ->
  asarray colors = Ok ca -> ~ conforming ca 4 ->
  fst (render_tri output v t kw w) = Raise AssertionError /\
  (exists m,
     meshes (host (snd (render_tri output v t kw w))) = meshes (host w) ++ [m] /\
     mesh_faces m = rows ta /\
     color_attributes m = [] /\ mesh_materials m = []) /\
  (exists o,
     objects (host (snd (render_tri output v t kw w))) = objects (host w) ++ [o] /\
     obj_data o = MeshData (length (meshes (host w)))) /\
  scene_objects (scene (host (snd (render_tri output v t kw w)))) =
  scene_objects (scene (host w)) /\
  cameras (host (snd (render_tri output v t kw w))) = cameras (host w) /\
  lights (host (snd (render_tri output v t kw w))) = lights (host w).
Proof.
  intros Hv Ht Hcv Hct Hi Hk Htruth Hc Hn.
  assert (Hconf : conformingb va 3 && conformingb ta 3 = true).
  { apply andb_true_iff. split; apply conformingb_spec; assumption. }
  assert (Hb : conformingb ca 4 = false).
  { destruct (conformingb ca 4) eqn:Hb; [|reflexivity].
    exfalso. apply Hn. apply conformingb_spec. exact Hb. }
  destruct (render_tri_outcome output v t kw w) as [_ [Hr Hh]].
  assert (E : exists w',
             render_tri_prepare (path_used output w) v t kw w =
             (Raise AssertionError, w') /\
             snd (mesh_from_tri "mesh" v t (without_children w)) = w').
  { unfold render_tri_prepare.
    unfold bind at 1. rewrite clear_scene_run.
    unfold bind at 1.
    rewrite (mesh_from_tri_ok "mesh" v t va ta _ Hv Ht Hconf Hi).
    rewrite Hk. unfold bind at 1. unfold bind at 1. rewrite Htruth.
    unfold lift, ret at 1. unfold bind at 1.
    unfold add_vertex_colors_and_material. unfold bind at 1.
    rewrite (add_vertex_colors_reject _ "Col" colors ca _ Hc Hb).
    eexists. split; reflexivity. }
  destruct E as [w' [E Ew]].
  rewrite (Hr AssertionError) by (rewrite E; reflexivity).
  rewrite Hh, E. simpl snd. subst w'.
  rewrite (mesh_from_tri_ok "mesh" v t va ta _ Hv Ht Hconf Hi).
  unfold without_children. run.
  split; [reflexivity|].
  split; [eexists; split; [reflexivity|]; repeat split|].
  split; [eexists; split; reflexivity|].
  repeat split; reflexivity.
Qed.

Lemma refused_colors_leave_mesh_behind_witness :
  fst (render_tri (env := Example.env) (OutPath "tri.png") Example.vertices
         Example.triangles
         (Kw.mk (Some (Seq [Seq [Num 1; Num 0; Num 0]]%R))
                (0.7, 0.0, 0.8)%R 5%R 35%R 5%R 300%R "CYCLES" 800 600)
         Example.w0) = Raise AssertionError /\
  scene_objects (scene (host (snd
    (render_tri (env := Example.env) (OutPath "tri.png") Example.vertices
       Example.triangles
       (Kw.mk (Some (Seq [Seq [Num 1; Num 0; Num 0]]%R))
              (0.7, 0.0, 0.8)%R 5%R 35%R 5%R 300%R "CYCLES" 800 600)
       Example.w0)))) = [].
Proof.
  pose proof (@refused_colors_leave_mesh_behind Example.env (OutPath "tri.png")
                Example.vertices Example.triangles _ _
                (Kw.mk (Some (Seq [Seq [Num 1; Num 0; Num 0]]%R))
                       (0.7, 0.0, 0.8)%R 5%R 35%R 5%R 300%R "CYCLES" 800 600)
                Example.w0 (Seq [Seq [Num 1; Num 0; Num 0]]%R)
                (mk_ndarray [1%nat; 3%nat] [1; 0; 0]%R)
                eq_refl eq_refl) as H.
  destruct H as [H1 [_ [_ [H4 _]]]]; try reflexivity.
  - split; reflexivity.
  - split; reflexivity.
  - intros [_ H]. discriminate H.
  - split; [exact H1 | exact H4].
Defined.

(** ** The material *)

Ltac crunch_material :=
  lazy beta iota zeta delta
    [bind ret raise lift get_host modify_host py_assert
     set_meshes set_materials set_cameras set_lights set_objects set_scene
     fst snd host fs streams meshes materials cameras lights objects scene
     use_denoising
     mat_name use_nodes nodes links node_name node_type layer_name
     attr_name attr_type attr_domain attr_data
     mesh_name mesh_vertices mesh_edges mesh_faces color_attributes
     mesh_materials obj_name obj_data
     materials_new get_material modify_material set_use_nodes nodes_lookup
     nodes_new set_layer_name links_new materials_append obj_mesh get_attr
     get_mesh with_attribute option_map node_label].

Lemma find_principled :
  find_node "Principled BSDF" preloaded_nodes 0 = Some 0%nat.
Proof. reflexivity. Qed.

Lemma length_preloaded : length preloaded_nodes = 2%nat.
Proof. reflexivity. Qed.

(** X13. On colors that [add_vertex_colors] accepts,
    [add_vertex_colors_and_material] makes one new material with nodes
    switched on: after the two preloaded nodes comes a vertex-color node
    that reads the attribute under the name the host gave it, linked from
    its first output to the first input of the Principled BSDF node; the
    material is appended to the mesh's materials and returned with the
    attribute. *)
Theorem material_reads_the_attribute `{env : Env}
    obj name colors ca w mesh m K :
  asarray colors = Ok ca ->
  shape ca = [K; 4%nat] ->
  mesh_of w obj mesh m ->
  (K <= length (mesh_vertices m))%nat ->
  exists w' mat m' a,
    add_vertex_colors_and_material obj name colors w =
    (Ok ((mesh, length (color_attributes m)), length (materials (host w))), w') /\
    materials (host w') = materials (host w) ++ [mat] /\
    use_nodes mat = true /\
    nodes mat =
    preloaded_nodes ++
      [mk_Node (unique_name "Color Attribute" (map node_name preloaded_nodes))
               "ShaderNodeVertexColor" (attr_name a)] /\
    links mat = [mk_Link 0 0 1 0; mk_Link 2 0 0 0] /\
    attr_name a = unique_name name (map attr_name (color_attributes m)) /\
    nth_error (meshes (host w')) mesh = Some m' /\
    color_attributes m' = color_attributes m ++ [a] /\
    mesh_materials m' = mesh_materials m ++ [length (materials (host w))] /\
    objects (host w') = objects (host w).
Proof.
  intros Hc Hs Hobj HK.
  pose proof (add_vertex_colors_exact obj name colors ca w mesh m K Hc Hs Hobj HK)
    as Hadd.
  destruct Hobj as [o [Ho [Hd Hm]]].
  unfold add_vertex_colors_and_material. unfold bind at 1. rewrite Hadd.
  destruct w as [[ms mats cs ls os sc d] f s c].
  destruct o as [on od ol orot]. destruct m as [mn mv me mf mattrs mmats].
  cbn [host meshes objects materials obj_data color_attributes mesh_materials
       mesh_vertices] in Ho, Hd, Hm, HK |- *.
  subst od.
  repeat (crunch_material;
          rewrite ?nth_error_snoc, ?update_nth_snoc, ?nth_error_update_nth_eq,
            ?Hm, ?Ho, ?find_principled).
  do 3 eexists.
  exists (mk_Attribute (unique_name name (map attr_name mattrs))
                       "FLOAT_COLOR" "POINT"
                       (map stored (array_rows K 4 (data ca)) ++
                        repeat default_color (length mv - K))).
  split; [reflexivity|]. crunch_material.
  split; [reflexivity|]. split; [reflexivity|]. split; [reflexivity|].
  split; [reflexivity|]. split; [reflexivity|]. split.
  - rewrite !nth_error_update_nth_eq, Hm. reflexivity.
  - repeat split.
Qed.

Lemma material_reads_the_attribute_witness :
  exists w' mat a,
    add_vertex_colors_and_material (env := Example.env) 0 "Col"
      Example.three_colors Example.w1 = (Ok ((0, 0), 0)%nat, w') /\
    materials (host w') = [mat] /\
    nodes mat =
    preloaded_nodes ++
      [mk_Node "Color Attribute" "ShaderNodeVertexColor" (attr_name a)] /\
    attr_name a = "Col".
Proof.
  destruct (@material_reads_the_attribute Example.env 0 "Col"
              Example.three_colors Example.color_array Example.w1 0
              Example.triangle_mesh 3 eq_refl eq_refl example_mesh_of)
    as [w' [mat [m' [a [H1 [H2 [_ [H4 [_ [H6 _]]]]]]]]]].
  - simpl. lia.
  - exists w', mat, a. split; [exact H1|]. split; [exact H2|].
    split; [exact H4 | exact H6].
Defined.

(** ** A call with colors *)

Ltac crunch_all :=
  lazy beta iota zeta delta
    [bind ret raise lift get_host modify_host py_assert
     set_meshes set_materials set_cameras set_lights set_objects set_scene
     set_use_denoising set_children set_scene_objects set_scene_camera
     set_render set_engine put_resolution_x put_resolution_y set_filepath
     fst snd host fs streams clock meshes materials cameras lights objects
     scene use_denoising children scene_objects scene_camera render
     engine resolution_x resolution_y filepath
     cam_name lens light_name light_type energy
     obj_name obj_data location rotation_euler
     objects_link cameras_new set_lens get_camera objects_new
     set_location set_rotation_euler get_object lights_new set_energy
     get_light without_children
     mat_name use_nodes nodes links node_name node_type layer_name
     attr_name attr_type attr_domain attr_data
     mesh_name mesh_vertices mesh_edges mesh_faces color_attributes
     mesh_materials
     materials_new get_material modify_material set_use_nodes nodes_lookup
     nodes_new set_layer_name links_new materials_append obj_mesh get_attr
     get_mesh with_attribute option_map node_label plain_mesh].

(** X14. With vertices of N rows, triangles that conform and that the
    host takes, a resolution the host takes, and colors that are taken as
    given and convert to K <= N rows of 4 columns, [render_tri] gets to
    the render operator; the mesh it has built carries one color
    attribute, holding the K rows in single precision, and one material,
    the new one. *)
Theorem colored_call_attaches_colors `{env : Env}
    output v t va ta kw w colors ca N K :
  asarray v = Ok va -> shape va = [N; 3%nat] ->
  asarray_int t = Ok ta -> conforming ta 3 ->
  indices_fit (rows ta) = true ->
  in_int32 (Kw.resolution_x kw) = true ->
  in_int32 (Kw.resolution_y kw) = true ->
  Kw.colors kw = Some colors -> truth colors = Ok true ->
  asarray colors = Ok ca -> shape ca = [K; 4%nat] -> (K <= N)%nat ->
  fst (render_tri_prepare (path_used output w) v t kw w) = Ok tt /\
  exists m' a mat,
    nth_error (meshes (host (snd (render_tri output v t kw w))))
              (length (meshes (host w))) = Some m' /\
    mesh_vertices m' = map stored (rows va) /\
    color_attributes m' = [a] /\
    attr_name a = unique_name "Col" [] /\
    (forall i, (i < K)%nat ->
               nth_error (attr_data a) i = Some (stored (row ca 4 i))) /\
    mesh_materials m' = [length (materials (host w))] /\
    materials (host (snd (render_tri output v t kw w))) =
    materials (host w) ++ [mat].
Proof.
  intros Hv Hsv Ht Hct Hi Hx Hy Hk Htruth Hc Hsc HK.
  assert (Hconf : conformingb va 3 && conformingb ta 3 = true).
  { apply andb_true_iff. split.
    - exact (conformingb_shape _ _ _ Hsv).
    - apply conformingb_spec. exact Hct. }
  assert (HN : length (map stored (rows va)) = N)
    by (rewrite length_map, (rows_shape _ _ _ Hsv); apply length_array_rows).
  destruct (render_tri_outcome output v t kw w) as [_ [_ Hh]].
  rewrite Hh. generalize (path_used output w). intros p.
  assert (E : exists w',
             render_tri_prepare p v t kw w = (Ok tt, w') /\
             nth_error (meshes (host w')) (length (meshes (host w))) =
             Some (mk_Mesh (unique_name "mesh" (map mesh_name (meshes (host w))))
                     (map stored (rows va))
                     (match rows ta with
                      | [] => []
                      | _ => calc_edges [] (rows ta)
                      end)
                     (rows ta)
                     [mk_Attribute (unique_name "Col" []) "FLOAT_COLOR" "POINT"
                        (map stored (array_rows K 4 (data ca)) ++
                         repeat default_color
                           (length (map stored (rows va)) - K))]
                     [length (materials (host w))]) /\
             exists mat, materials (host w') = materials (host w) ++ [mat]).
  { unfold render_tri_prepare.
    unfold bind at 1. rewrite clear_scene_run.
    unfold bind at 1.
    rewrite (mesh_from_tri_ok "mesh" v t va ta _ Hv Ht Hconf Hi).
    unfold set_resolution_x, set_resolution_y, store_int.
    rewrite Hx, Hy.
    rewrite Hk. unfold bind at 1. unfold bind at 1. rewrite Htruth.
    unfold lift at 1, ret at 1. unfold bind at 1.
    unfold add_vertex_colors_and_material. unfold bind at 1.
    match goal with
    | |- context [add_vertex_colors ?obj _ _ ?w1] =>
        assert (Hobj : mesh_of w1 obj (length (meshes (host w)))
                         (plain_mesh (host w) "mesh" va ta))
    end.
    { eexists. unfold without_children. run. split; [apply nth_error_snoc|].
      split; [reflexivity | apply nth_error_snoc]. }
    rewrite (add_vertex_colors_exact _ "Col" colors ca _ _ _ K Hc Hsc Hobj)
      by (simpl; rewrite HN; exact HK).
    clear Hobj.
    destruct w as [[ms mats cs ls os [ch so sc rs] d] f s c].
    repeat (crunch_all;
            rewrite ?nth_error_snoc, ?update_nth_snoc, ?find_principled).
    eexists. split; [reflexivity|]. crunch_all.
    split; [apply nth_error_snoc|]. eexists. reflexivity. }
  destruct E as [w' [E [Hm [mat Hmat]]]]. rewrite E. simpl fst. simpl snd.
  split; [reflexivity|].
  do 2 eexists. exists mat. split; [exact Hm|].
  split; [reflexivity|]. split; [reflexivity|]. split; [reflexivity|].
  split; [|split; [reflexivity | exact Hmat]].
  intros i Hi'. cbn [attr_data].
  rewrite nth_error_app1
    by (rewrite length_map, length_array_rows; exact Hi').
  rewrite nth_error_map, nth_error_array_rows by exact Hi'. reflexivity.
Qed.

Lemma colored_call_attaches_colors_witness :
  fst (render_tri_prepare (env := Example.env)
         (path_used (env := Example.env) (OutStream 7) Example.w0)
         Example.vertices Example.triangles
         (Kw.mk (Some Example.three_colors)
                (0.7, 0.0, 0.8)%R 5%R 35%R 5%R 300%R "CYCLES" 800 600)
         Example.w0) = Ok tt.
Proof.
  refine (proj1 (@colored_call_attaches_colors Example.env (OutStream 7)
                   Example.vertices Example.triangles
                   (mk_ndarray [3%nat; 3%nat] [0; 0; 0; 1; 0; 0; 0; 1; 0]%R)
                   (mk_ndarray [1%nat; 3%nat] [0; 1; 2]%Z)
                   (Kw.mk (Some Example.three_colors)
                          (0.7, 0.0, 0.8)%R 5%R 35%R 5%R 300%R "CYCLES" 800 600)
                   Example.w0 Example.three_colors Example.color_array 3 3
                   eq_refl eq_refl eq_refl _ eq_refl eq_refl eq_refl
                   eq_refl eq_refl eq_refl eq_refl _)).
  - split; reflexivity.
  - lia.
Defined.

(** ** What a call leaves in the render settings *)

(** X15. After a call with a stream has returned, the scene's render
    filepath still names the file in the temporary directory, which is
    gone; the other render settings are the engine CYCLES and the
    caller's resolution as the host takes it, brought into the range 4 to
    65536. *)
Theorem stream_call_leaves_temporary_path `{env : Env} h v t kw w :
  fst (render_tri (OutStream h) v t kw w) = Ok tt ->
  render (scene (host (snd (render_tri (OutStream h) v t kw w)))) =
  mk_RenderSettings "CYCLES"
    (Z.max 4 (Z.min 65536 (Kw.resolution_x kw)))
    (Z.max 4 (Z.min 65536 (Kw.resolution_y kw)))
    (String.append (mkdtemp (fs w)) "/out.png") /\
  fs (snd (render_tri (OutStream h) v t kw w))
     (String.append (mkdtemp (fs w)) "/out.png") = None.
Proof.
  intros Hok.
  destruct (render_tri_outcome (OutStream h) v t kw w) as [Hr [_ Hh]].
  specialize (Hr Hok). unfold path_used in Hr, Hh.
  destruct (stream_call_cleans_up_files h v t kw w) as [Hin _].
  split.
  - rewrite Hh.
    pose proof (prepare_render_settings
                  (String.append (mkdtemp (fs w)) "/out.png") v t kw w) as Hs.
    destruct (render_tri_prepare _ v t kw w) as [[[]|e] w']; [|discriminate].
    destruct (Hs tt w' eq_refl) as [_ [Hs' _]]. exact Hs'.
  - apply Hin.
    change (String.append (mkdtemp (fs w)) "/out.png") with
      (String.append (mkdtemp (fs w)) (String.append "/" "out.png")).
    rewrite <- append_assoc_string. apply prefix_append.
Qed.

Lemma stream_call_leaves_temporary_path_witness :
  filepath (render (scene (host (snd
    (render_tri (env := Example.env) (OutStream 7) Example.vertices
       Example.triangles Kw.default Example.w0))))) = "/tmp/tmpdir/out.png".
Proof.
  rewrite (proj1 (@stream_call_leaves_temporary_path Example.env 7
                    Example.vertices Example.triangles Kw.default Example.w0
                    ltac:(lazy; reflexivity))).
  reflexivity.
Defined.

(** X16. Whatever [renderer] the caller passes and whatever the output
    is, the engine the scene is rendered with is CYCLES. *)
Theorem engine_is_always_cycles `{env : Env} output v t kw w :
  fst (render_tri output v t kw w) = Ok tt ->
  engine (render (scene (host (snd (render_tri output v t kw w))))) = "CYCLES".
Proof.
  destruct (render_tri_outcome output v t kw w) as [Hr [_ Hh]].
  rewrite Hh. intros Hok. apply Hr in Hok.
  pose proof (prepare_render_settings (path_used output w) v t kw w) as Hs.
  destruct (render_tri_prepare _ v t kw w) as [[[]|e] w']; [|discriminate].
  destruct (Hs tt w' eq_refl) as [_ [Hs' _]]. run_fields. rewrite Hs'.
  reflexivity.
Qed.

Lemma engine_is_always_cycles_witness :
  engine (render (scene (host (snd
    (render_tri (env := Example.env) (OutPath "tri.png")
       Example.vertices Example.triangles
       (Kw.mk None (0.7, 0.0, 0.8)%R 5%R 35%R 5%R 300%R
              "BLENDER_WORKBENCH" 800 600)
       Example.w0))))) = "CYCLES".
Proof.
  apply (@engine_is_always_cycles Example.env (OutPath "tri.png")
           Example.vertices Example.triangles
           (Kw.mk None (0.7, 0.0, 0.8)%R 5%R 35%R 5%R 300%R
                  "BLENDER_WORKBENCH" 800 600)
           Example.w0).
  lazy. reflexivity.
Defined.
